(** * Sistema-RAG: the two retrieval-augmented pipelines, embedded in Rocq

    The repository has two pipelines over the same third-party libraries:

    - [rag_pipeline.py]: class [RAGPipeline], a stateful object whose four
      optional attributes ([documents], [text_chunks], [vectorstore],
      [qa_chain]) record how far ingestion has progressed;
    - [Sistema-RAG/rag.py]: class [SimpleRAGPipeline], which ingests in its
      constructor and assembles the prompt itself in [query].

    Everything the classes do not compute themselves (reading the
    environment, parsing the PDF, splitting, embedding, the vector store,
    the language model) is a call into a library.  Those calls are kept as
    calls: every one is an [ExtCall], answered by a handler the development
    is parametric in, and recorded in a trace.  Console output ([print]) is
    not modelled.  Python [str] is modelled by [string] (the UTF-8 bytes of
    the text), Python [int] by [Z]. *)

From Stdlib Require Import String Ascii List ZArith Lia Bool.
Import ListNotations.
Local Open Scope string_scope.

(** ** Python values shared by both files *)

(** [langchain] documents: a text and its metadata dictionary. *)
Record Document : Type := mkDocument {
  page_content : string;
  metadata : list (string * string)
}.

(** Exceptions.  The classes raise [ValueError] themselves; libraries may
    raise that or any other exception class. *)
Inductive exn : Type :=
| ValueError (msg : string)
| LibraryError (cls msg : string).

(** [length_function=len] *)
Inductive LengthFunction : Type := py_len.

(** Keyword arguments of [RecursiveCharacterTextSplitter(...)]; an argument
    the call site leaves out is [None]. *)
Record TextSplitter : Type := mkTextSplitter {
  chunk_size : Z;
  chunk_overlap : Z;
  length_function : option LengthFunction;
  separators : option (list string)
}.

(** [OpenAIEmbeddings()] and [HuggingFaceEmbeddings(model_name=...)] *)
Inductive Embeddings : Type :=
| OpenAIEmbeddings
| HuggingFaceEmbeddings (model_name : string).

(** The store handle returned by [Chroma.from_documents]: the collection
    itself lives in the outside world, under [persist_directory]. *)
Record Chroma : Type := mkChroma {
  embedding : Embeddings;
  chroma_persist_directory : string
}.

(** [vectorstore.as_retriever(search_kwargs={"k": k})] *)
Record Retriever : Type := mkRetriever {
  retriever_store : Chroma;
  search_k : Z
}.

(** [ChatOpenAI(model_name=..., temperature=...)] and
    [Ollama(model=..., temperature=...)] *)
Inductive LLMClass : Type := ChatOpenAI | Ollama.

Record LLM : Type := mkLLM {
  llm_class : LLMClass;
  llm_model : string;
  temperature : Z
}.

(** [RetrievalQA.from_chain_type(llm=, chain_type=, retriever=,
    return_source_documents=)] *)
Record RetrievalQA : Type := mkRetrievalQA {
  qa_llm : LLM;
  chain_type : string;
  qa_retriever : Retriever;
  return_source_documents : bool
}.

(** The dictionary a query returns, with its three keys. *)
Module Response.
Record t : Type := mk {
  result : string;
  source_documents : list Document;
  query : string
}.
End Response.

(** ** Calls into the libraries *)

(** One constructor per library entry point the two files use, indexed by
    the type of what the call returns when it does not raise. *)
Inductive ExtCall : Type -> Type :=
| load_dotenv : ExtCall unit
| os_getenv (name : string) : ExtCall (option string)
| PyPDFLoader_new (path : string) : ExtCall unit
| PyPDFLoader_load (path : string) : ExtCall (list Document)
| TextSplitter_new (ts : TextSplitter) : ExtCall unit
| TextSplitter_split_documents (ts : TextSplitter) (docs : list Document)
    : ExtCall (list Document)
| Embeddings_new (e : Embeddings) : ExtCall unit
| Chroma_from_documents (docs : list Document) (e : Embeddings)
    (persist_directory : string) : ExtCall unit
| Chroma_as_retriever (store : Chroma) (k : Z) : ExtCall unit
| LLM_new (llm : LLM) : ExtCall unit
| RetrievalQA_from_chain_type (qa : RetrievalQA) : ExtCall unit
| RetrievalQA_invoke (qa : RetrievalQA) (question : string)
    : ExtCall Response.t
| Retriever_invoke (r : Retriever) (question : string)
    : ExtCall (list Document)
| LLM_invoke (llm : LLM) (prompt : string) : ExtCall string.

(** A call, forgetting its return type: the entries of a trace. *)
Inductive Event : Type :=
| Ev {X : Type} (c : ExtCall X).

(** The rest of the world (process environment, disk, network services)
    answers a call with a value or an exception and may change. *)
Definition Handler (World : Type) : Type :=
  forall X : Type, ExtCall X -> World -> (exn + X) * World.

(** What lies outside the Python objects: the world and the calls made so
    far, oldest first. *)
Record Ext (World : Type) : Type := mkExt {
  world : World;
  trace : list Event
}.
Arguments mkExt {World} _ _.
Arguments world {World} _.
Arguments trace {World} _.

(** ** A monad for methods: object state, outside world, exceptions

    A method of an object of type [S] maps the object and the outside to
    an outcome (exception or value) together with the object and the
    outside as the method leaves them.  A raised exception keeps every
    assignment made before it. *)
Definition M (World S A : Type) : Type :=
  S -> Ext World -> (exn + A) * S * Ext World.

Section Monad.
Context {World S : Type}.

Definition ret {A} (a : A) : M World S A :=
  fun s e => (inr a, s, e).

Definition raise {A} (x : exn) : M World S A :=
  fun s e => (inl x, s, e).

Definition bind {A B} (m : M World S A) (k : A -> M World S B)
  : M World S B :=
  fun s e =>
    match m s e with
    | (inl x, s', e') => (inl x, s', e')
    | (inr a, s', e') => k a s' e'
    end.

(** Reading [self] and assigning to its attributes. *)
Definition get_self : M World S S :=
  fun s e => (inr s, s, e).

Definition modify (f : S -> S) : M World S unit :=
  fun s e => (inr tt, f s, e).

(** A library call: the handler answers, the call is appended to the
    trace, and an exception raised by the library propagates. *)
Definition call (handle : Handler World) {X} (c : ExtCall X)
  : M World S X :=
  fun s e =>
    let (r, w') := handle X c (world e) in
    (r, s, mkExt w' (trace e ++ [Ev c])).
End Monad.

Notation "x <- m ;; k" := (bind m (fun x => k))
  (at level 61, m at next level, right associativity).
Notation "m ;;; k" := (bind m (fun _ => k))
  (at level 61, right associativity).

(** Python truthiness of [os.getenv]'s result: [None] and the empty string
    are false. *)
Definition truthy (v : option string) : bool :=
  match v with
  | None => false
  | Some "" => false
  | Some _ => true
  end.

(** ** rag_pipeline.py *)

Module RAGPipeline.

(** The attributes of an instance; [None] is Python's [None]. *)
Record t : Type := mk {
  pdf_path : string;
  persist_directory : string;
  documents : option (list Document);
  text_chunks : option (list Document);
  vectorstore : option Chroma;
  qa_chain : option RetrievalQA
}.

Definition set_documents (v : option (list Document)) (self : t) : t :=
  mk (pdf_path self) (persist_directory self) v (text_chunks self)
     (vectorstore self) (qa_chain self).

Definition set_text_chunks (v : option (list Document)) (self : t) : t :=
  mk (pdf_path self) (persist_directory self) (documents self) v
     (vectorstore self) (qa_chain self).

Definition set_vectorstore (v : option Chroma) (self : t) : t :=
  mk (pdf_path self) (persist_directory self) (documents self)
     (text_chunks self) v (qa_chain self).

Definition set_qa_chain (v : option RetrievalQA) (self : t) : t :=
  mk (pdf_path self) (persist_directory self) (documents self)
     (text_chunks self) (vectorstore self) v.

(** Default values of the keyword parameters. *)
Definition default_persist_directory : string := "./chroma_db".
Definition default_chunk_size : Z := 1000.
Definition default_chunk_overlap : Z := 100.
Definition default_model_name : string := "gpt-4o-mini".

Definition msg_no_api_key : string :=
  "OPENAI_API_KEY no encontrada. " ++
  "Por favor, crea un archivo .env con tu API key de OpenAI.".
Definition msg_no_documents : string :=
  "Primero debes cargar el PDF usando load_pdf()".
Definition msg_no_text_chunks : string :=
  "Primero debes fragmentar el texto usando split_text()".
Definition msg_no_vectorstore : string :=
  "Primero debes crear el vectorstore usando create_vectorstore()".
Definition msg_no_qa_chain : string :=
  "Primero debes configurar la cadena QA. " ++
  "Ejecuta initialize() o setup_qa_chain()".

Section Methods.
Context {World : Type} (handle : Handler World).

(** [__init__]: there is no object yet, so the state is [unit]; the new
    instance is the returned value. *)
Definition init (pdf_path persist_directory : string)
  : M World unit t :=
  call handle load_dotenv ;;;
  api_key <- call handle (os_getenv "OPENAI_API_KEY") ;;
  if negb (truthy api_key) then
    raise (ValueError msg_no_api_key)
  else
    ret (mk pdf_path persist_directory None None None None).

Definition load_pdf : M World t (list Document) :=
  self <- get_self ;;
  call handle (PyPDFLoader_new (pdf_path self)) ;;;
  docs <- call handle (PyPDFLoader_load (pdf_path self)) ;;
  modify (set_documents (Some docs)) ;;;
  ret docs.

Definition split_text (chunk_size chunk_overlap : Z)
  : M World t (list Document) :=
  self <- get_self ;;
  match documents self with
  | None => raise (ValueError msg_no_documents)
  | Some docs =>
      let text_splitter :=
        mkTextSplitter chunk_size chunk_overlap (Some py_len) None in
      call handle (TextSplitter_new text_splitter) ;;;
      chunks <- call handle
                  (TextSplitter_split_documents text_splitter docs) ;;
      modify (set_text_chunks (Some chunks)) ;;;
      ret chunks
  end.

Definition create_vectorstore : M World t Chroma :=
  self <- get_self ;;
  match text_chunks self with
  | None => raise (ValueError msg_no_text_chunks)
  | Some chunks =>
      let embeddings := OpenAIEmbeddings in
      call handle (Embeddings_new embeddings) ;;;
      call handle (Chroma_from_documents chunks embeddings
                     (persist_directory self)) ;;;
      let store := mkChroma embeddings (persist_directory self) in
      modify (set_vectorstore (Some store)) ;;;
      ret store
  end.

Definition setup_qa_chain (model_name : string)
  : M World t RetrievalQA :=
  self <- get_self ;;
  match vectorstore self with
  | None => raise (ValueError msg_no_vectorstore)
  | Some store =>
      let llm := mkLLM ChatOpenAI model_name 0 in
      call handle (LLM_new llm) ;;;
      call handle (Chroma_as_retriever store 3) ;;;
      let chain :=
        mkRetrievalQA llm "stuff" (mkRetriever store 3) true in
      call handle (RetrievalQA_from_chain_type chain) ;;;
      modify (set_qa_chain (Some chain)) ;;;
      ret chain
  end.

Definition initialize (chunk_size chunk_overlap : Z)
  : M World t unit :=
  load_pdf ;;;
  split_text chunk_size chunk_overlap ;;;
  create_vectorstore ;;;
  setup_qa_chain default_model_name ;;;
  ret tt.

Definition query (question : string) : M World t Response.t :=
  self <- get_self ;;
  match qa_chain self with
  | None => raise (ValueError msg_no_qa_chain)
  | Some chain =>
      response <- call handle (RetrievalQA_invoke chain question) ;;
      ret response
  end.

(** *** Callers

    A caller holds one instance and calls its methods in any order; an
    exception that escapes a method can be caught ([ejemplo.py] does so
    around [query]) and the instance used again. *)
Inductive Op : Type :=
| call_load_pdf
| call_split_text (chunk_size chunk_overlap : Z)
| call_create_vectorstore
| call_setup_qa_chain (model_name : string)
| call_initialize (chunk_size chunk_overlap : Z)
| call_query (question : string).

(** The instance and the outside after one method call, whatever its
    outcome. *)
Definition after (o : Op) (self : t) (e : Ext World) : t * Ext World :=
  match o with
  | call_load_pdf =>
      let '(_, s, e') := load_pdf self e in (s, e')
  | call_split_text cs co =>
      let '(_, s, e') := split_text cs co self e in (s, e')
  | call_create_vectorstore =>
      let '(_, s, e') := create_vectorstore self e in (s, e')
  | call_setup_qa_chain m =>
      let '(_, s, e') := setup_qa_chain m self e in (s, e')
  | call_initialize cs co =>
      let '(_, s, e') := initialize cs co self e in (s, e')
  | call_query q =>
      let '(_, s, e') := query q self e in (s, e')
  end.

Fixpoint after_all (ops : list Op) (self : t) (e : Ext World)
  : t * Ext World :=
  match ops with
  | [] => (self, e)
  | o :: ops' =>
      let (s, e') := after o self e in after_all ops' s e'
  end.
End Methods.

(** *** The lifecycle the attributes encode

    The class keeps no state field; progress is which attributes are
    set.  The most advanced attribute that is set names the stage. *)
Inductive Lifecycle : Type :=
| Uninitialized | DocumentLoaded | Chunked | Indexed | Ready.

Definition lifecycle (self : t) : Lifecycle :=
  match qa_chain self, vectorstore self, text_chunks self,
        documents self with
  | Some _, _, _, _ => Ready
  | None, Some _, _, _ => Indexed
  | None, None, Some _, _ => Chunked
  | None, None, None, Some _ => DocumentLoaded
  | None, None, None, None => Uninitialized
  end.

(** Each attribute is set only once the one before it is. *)
Definition in_order (self : t) : Prop :=
  (qa_chain self <> None -> vectorstore self <> None) /\
  (vectorstore self <> None -> text_chunks self <> None) /\
  (text_chunks self <> None -> documents self <> None).

(** Which calls assign which attribute ([initialize] runs all four
    steps). *)
Definition sets_documents (o : Op) : bool :=
  match o with
  | call_load_pdf | call_initialize _ _ => true
  | _ => false
  end.

Definition sets_text_chunks (o : Op) : bool :=
  match o with
  | call_split_text _ _ | call_initialize _ _ => true
  | _ => false
  end.

Definition sets_vectorstore (o : Op) : bool :=
  match o with
  | call_create_vectorstore | call_initialize _ _ => true
  | _ => false
  end.

Definition sets_qa_chain (o : Op) : bool :=
  match o with
  | call_setup_qa_chain _ | call_initialize _ _ => true
  | _ => false
  end.

(** The two settings of a chain that the class fixes itself. *)
Definition fixed_settings (chain : RetrievalQA) : Prop :=
  temperature (qa_llm chain) = 0%Z /\ search_k (qa_retriever chain) = 3%Z.

(** What holds of every instance a program can hold. *)
Definition well_formed (self : t) : Prop :=
  in_order self /\
  forall chain, qa_chain self = Some chain -> fixed_settings chain.

Definition none_of (p : Op -> bool) (ops : list Op) : bool :=
  forallb (fun o => negb (p o)) ops.

(** The instances a program can hold: built by the constructor, then
    used through the methods, in any world. *)
Inductive Reachable {World : Type} (handle : Handler World) : t -> Prop :=
| reach_init pdf_path persist_directory e self e' :
    init handle pdf_path persist_directory tt e = (inr self, tt, e') ->
    Reachable handle self
| reach_call o self e :
    Reachable handle self ->
    Reachable handle (fst (after handle o self e)).

End RAGPipeline.

(** ** Sistema-RAG/rag.py *)

(** The line feed of Python's ["\n"]. *)
Definition nl : string := String "010"%char "".

(** [sep.join(parts)] *)
Fixpoint join (sep : string) (parts : list string) : string :=
  match parts with
  | [] => ""
  | [p] => p
  | p :: rest => p ++ sep ++ join sep rest
  end.

Module SimpleRAGPipeline.

Record t : Type := mk {
  vector_store : Chroma;
  llm : LLM;
  retriever : Retriever
}.

Definition default_db_path : string := "./chroma_db".

Definition embedding_model_name : string :=
  "sentence-transformers/paraphrase-multilingual-MiniLM-L12-v2".

(** [context = "\n\n".join([doc.page_content for doc in source_documents])] *)
Definition context (source_documents : list Document) : string :=
  join (nl ++ nl) (map page_content source_documents).

(** The first line of the f-string, up to the first line break. *)
Definition instruction : string :=
  "Utiliza el siguiente contexto para responder a la pregunta. " ++
  "Si no sabes la respuesta basándote en el contexto, di que no lo sabes.".

(** The f-string of [query], with its two holes. *)
Definition prompt (context question : string) : string :=
  instruction ++ nl ++
  nl ++
  "Contexto:" ++ nl ++
  context ++ nl ++
  nl ++
  "Pregunta: " ++ question ++ nl ++
  nl ++
  "Respuesta:".

(** The fixed text of the f-string on either side of the context. *)
Definition before_context : string :=
  instruction ++ nl ++ nl ++ "Contexto:" ++ nl.

Definition after_context (question : string) : string :=
  nl ++ nl ++ "Pregunta: " ++ question ++ nl ++ nl ++ "Respuesta:".

Section Methods.
Context {World : Type} (handle : Handler World).

(** [__init__] *)
Definition init (pdf_path db_path : string) : M World unit t :=
  call handle (PyPDFLoader_new pdf_path) ;;;
  documents <- call handle (PyPDFLoader_load pdf_path) ;;
  let splitter :=
    mkTextSplitter 1000 100 None (Some [nl ++ nl; nl; " "; ""]) in
  call handle (TextSplitter_new splitter) ;;;
  chunks <- call handle
              (TextSplitter_split_documents splitter documents) ;;
  let embeddings := HuggingFaceEmbeddings embedding_model_name in
  call handle (Embeddings_new embeddings) ;;;
  call handle (Chroma_from_documents chunks embeddings db_path) ;;;
  let vector_store := mkChroma embeddings db_path in
  let llm := mkLLM Ollama "llama3.2" 0 in
  call handle (LLM_new llm) ;;;
  call handle (Chroma_as_retriever vector_store 3) ;;;
  ret (mk vector_store llm (mkRetriever vector_store 3)).

Definition query (question : string) : M World t Response.t :=
  self <- get_self ;;
  source_documents <-
    call handle (Retriever_invoke (retriever self) question) ;;
  let prompt := prompt (context source_documents) question in
  response <- call handle (LLM_invoke (llm self) prompt) ;;
  ret (Response.mk response source_documents question).

Definition create_rag_pipeline (pdf_path db_path : string)
  : M World unit t :=
  init pdf_path db_path.

Definition query_rag (question : string) : M World t Response.t :=
  query question.
End Methods.

End SimpleRAGPipeline.

(** ** The reading of a page back from its chunks

    What "concatenating all chunks of a page, removing the overlapping
    prefixes" computes: the first chunk whole, every later chunk without
    its first [overlap] characters. *)
Definition drop_prefix (n : nat) (s : string) : string :=
  substring n (String.length s - n) s.

Definition reassemble (overlap : nat) (chunks : list string) : string :=
  match chunks with
  | [] => ""
  | c :: rest => c ++ join "" (map (drop_prefix overlap) rest)
  end.

(** ** A small outside world

    One concrete world and handler, for running the pipelines on examples.
    It keeps the process environment, the [.env] file, the readable PDFs
    (already as pages) and the persisted collections; its language model
    always gives the same reply.  Where the two files rely on a library's
    behaviour, the handler does what the library does on the examples used
    below: the splitter's constructor refuses an overlap larger than the
    chunk size (and only then, or on a size that is not positive or an
    overlap that is negative); the splitter cuts at blanks, packs words into
    chunks and strips the blanks at chunk ends; [Chroma.from_documents],
    called without ids, gives every document a fresh id and appends it to the
    collection of the persist directory. *)
Module Reference.

Record World : Type := mkWorld {
  environ : list (string * string);
  dotenv_file : list (string * string);
  disk : list (string * list Document);
  collections : list (string * list (nat * Document));
  next_id : nat
}.

(** What the model answers, whatever it is asked. *)
Definition model_reply : string := "no lo se".

Fixpoint assoc {A} (key : string) (l : list (string * A)) : option A :=
  match l with
  | [] => None
  | (k, v) :: rest => if String.eqb k key then Some v else assoc key rest
  end.

(** [load_dotenv()] does not override variables that are already set. *)
Definition merge_dotenv (env file : list (string * string))
  : list (string * string) :=
  (env ++ filter (fun kv => match assoc (fst kv) env with
                           | None => true
                           | Some _ => false
                           end) file)%list.

(** The words of a text, cut at blanks. *)
Fixpoint words (cur s : string) : list string :=
  match s with
  | "" => match cur with "" => [] | _ => [cur] end
  | String c rest =>
      if Ascii.eqb c " "%char then
        match cur with
        | "" => words "" rest
        | _ => cur :: words "" rest
        end
      else words (cur ++ String c "") rest
  end.

(** Packs words into chunks of at most [size] characters. *)
Fixpoint pack (size : nat) (cur : string) (ws : list string)
  : list string :=
  match ws with
  | [] => match cur with "" => [] | _ => [cur] end
  | w :: rest =>
      match cur with
      | "" => pack size w rest
      | _ =>
          if (String.length cur + 1 + String.length w <=? size)%nat
          then pack size (cur ++ " " ++ w) rest
          else cur :: pack size w rest
      end
  end.

Definition split_one (ts : TextSplitter) (text : string) : list string :=
  pack (Z.to_nat (chunk_size ts)) "" (words "" text).

(** Every chunk keeps the metadata of the page it comes from. *)
Definition split_documents (ts : TextSplitter) (docs : list Document)
  : list Document :=
  flat_map (fun d => map (fun c => mkDocument c (metadata d))
                         (split_one ts (page_content d))) docs.

Definition splitter_accepts (ts : TextSplitter) : bool :=
  ((0 <? chunk_size ts) && (0 <=? chunk_overlap ts) &&
   (chunk_overlap ts <=? chunk_size ts))%Z.

Definition collection (dir : string) (w : World)
  : list (nat * Document) :=
  match assoc dir (collections w) with
  | Some entries => entries
  | None => []
  end.

Fixpoint number (from : nat) (docs : list Document)
  : list (nat * Document) :=
  match docs with
  | [] => []
  | d :: rest => (from, d) :: number (S from) rest
  end.

(** Appends [docs] under fresh ids to the collection of [dir]. *)
Definition add_documents (dir : string) (docs : list Document)
  (w : World) : World :=
  mkWorld (environ w) (dotenv_file w) (disk w)
    ((dir, (collection dir w ++ number (next_id w) docs)%list)
       :: collections w)
    (next_id w + List.length docs).

(** Every entry is as similar to a question as any other, so the first
    [k] entries in insertion order are the nearest ones. *)
Definition search (store : Chroma) (k : Z) (w : World) : list Document :=
  firstn (Z.to_nat k)
    (map snd (collection (chroma_persist_directory store) w)).

Definition handle : Handler World :=
  fun X c =>
    match c in ExtCall X return World -> (exn + X) * World with
    | load_dotenv => fun w =>
        (inr tt,
         mkWorld (merge_dotenv (environ w) (dotenv_file w))
           (dotenv_file w) (disk w) (collections w) (next_id w))
    | os_getenv name => fun w => (inr (assoc name (environ w)), w)
    | PyPDFLoader_new path => fun w =>
        match assoc path (disk w) with
        | Some _ => (inr tt, w)
        | None => (inl (ValueError ("File path " ++ path ++
                                    " is not a valid file or url")), w)
        end
    | PyPDFLoader_load path => fun w =>
        match assoc path (disk w) with
        | Some pages => (inr pages, w)
        | None => (inl (LibraryError "FileNotFoundError" path), w)
        end
    | TextSplitter_new ts => fun w =>
        if splitter_accepts ts then (inr tt, w)
        else (inl (ValueError "bad chunk_size or chunk_overlap"), w)
    | TextSplitter_split_documents ts docs => fun w =>
        (inr (split_documents ts docs), w)
    | Embeddings_new _ => fun w => (inr tt, w)
    | Chroma_from_documents docs _ dir => fun w =>
        (inr tt, add_documents dir docs w)
    | Chroma_as_retriever _ _ => fun w => (inr tt, w)
    | LLM_new _ => fun w => (inr tt, w)
    | RetrievalQA_from_chain_type _ => fun w => (inr tt, w)
    | RetrievalQA_invoke qa question => fun w =>
        (inr (Response.mk model_reply
                (search (retriever_store (qa_retriever qa))
                        (search_k (qa_retriever qa)) w)
                question), w)
    | Retriever_invoke r question => fun w =>
        (inr (search (retriever_store r) (search_k r) w), w)
    | LLM_invoke _ _ => fun w => (inr model_reply, w)
    end.

(** A one-page PDF, and a world that has it on disk and the API key in
    its [.env] file. *)
Definition page : Document :=
  mkDocument "hello world" [("source", "documento.pdf"); ("page", "0")].

Definition world0 : World :=
  mkWorld [] [("OPENAI_API_KEY", "sk-test")]
    [("documento.pdf", [page])] [] 0.

(** The same world without a [.env] file. *)
Definition world_no_key : World :=
  mkWorld [] [] [("documento.pdf", [page])] [] 0.

Definition start (w : World) : Ext World := mkExt w [].

(** A new instance, as the constructor leaves it. *)
Definition fresh : RAGPipeline.t :=
  RAGPipeline.mk "documento.pdf" "./db" None None None None.

(** The outside once the constructor has returned [fresh]. *)
Definition constructed : Ext World :=
  snd (RAGPipeline.init handle "documento.pdf" "./db" tt (start world0)).

(** The instance and the outside after [load_pdf], after [load_pdf] and
    [split_text(10, 0)], after one [initialize(10, 0)] and after two. *)
Definition loaded : RAGPipeline.t * Ext World :=
  RAGPipeline.after_all handle [RAGPipeline.call_load_pdf]
    fresh constructed.

Definition chunked : RAGPipeline.t * Ext World :=
  RAGPipeline.after_all handle [RAGPipeline.call_split_text 10 0]
    (fst loaded) (snd loaded).

Definition ingested : RAGPipeline.t * Ext World :=
  RAGPipeline.after_all handle [RAGPipeline.call_initialize 10 0]
    fresh constructed.

Definition ingested_twice : RAGPipeline.t * Ext World :=
  RAGPipeline.after_all handle [RAGPipeline.call_initialize 10 0]
    (fst ingested) (snd ingested).

(** The pipeline of [rag.py] over the same PDF, and the outside once its
    constructor has run. *)
Definition simple_pipeline : SimpleRAGPipeline.t :=
  let store :=
    mkChroma (HuggingFaceEmbeddings
                SimpleRAGPipeline.embedding_model_name) "./db" in
  SimpleRAGPipeline.mk store (mkLLM Ollama "llama3.2" 0)
                       (mkRetriever store 3).

Definition simple_ext : Ext World :=
  snd (SimpleRAGPipeline.init handle "documento.pdf" "./db" tt
         (start world0)).

(** Two entries of a collection that come from the same place of the same
    document: equal metadata and equal text. *)
Definition same_identity (a b : nat * Document) : Prop :=
  metadata (snd a) = metadata (snd b) /\
  page_content (snd a) = page_content (snd b).

End Reference.

(** ** The scripts: [main] of rag_pipeline.py and ejemplo.py

    The scripts hold one pipeline in a local variable and drive it from
    the console.  Standard input is the list of lines still to be read;
    [input()] takes the first one and raises [EOFError] when there is
    none, so a script takes the lines as an argument and returns those it
    has not read.  What [os.path.exists] answers is a function of the
    world.  [str.strip] and [str.lower] are Python built-ins over Unicode
    text and are kept as parameters.  The prompts of [input] and all
    console output are not modelled. *)
Module Scripts.

Definition EOFError : exn :=
  LibraryError "EOFError" "EOF when reading a line".

(** [example_questions] of [main] *)
Definition example_questions : list string :=
  ["¿De qué trata el documento?";
   "¿Cuáles son los puntos principales?"].

(** [preguntas] of [ejemplo_basico] *)
Definition preguntas : list string :=
  ["¿De qué trata este documento?";
   "¿Cuáles son los conceptos principales?";
   "Resume el contenido en 3 puntos"].

(** The words that end the interactive loop of [main] and of
    [ejemplo_interactivo]. *)
Definition main_exit_words : list string := ["salir"; "exit"; "quit"].

Definition ejemplo_exit_words : list string :=
  ["salir"; "exit"; "quit"; "q"].

(** [x in words] *)
Definition py_in (x : string) (words : list string) : bool :=
  existsb (String.eqb x) words.

(** Truth value of a [str]: false for the empty one only. *)
Definition nonempty (s : string) : bool :=
  match s with
  | EmptyString => false
  | _ => true
  end.

(** [a or b] on strings *)
Definition py_or (a b : string) : string :=
  if nonempty a then a else b.

(** The calls of the chain a run of questions makes, in order. *)
Definition asks (chain : RetrievalQA) (questions : list string)
  : list Event :=
  map (fun q => Ev (RetrievalQA_invoke chain q)) questions.

Section Control.
Context {World : Type}.

(** A block of method calls on the object held in a local variable; the
    variable goes out of scope with the block. *)
Definition with_object {A} (rag : RAGPipeline.t)
  (body : M World RAGPipeline.t A) : M World unit A :=
  fun u e => let '(r, _, e') := body rag e in (r, u, e').

(** [try: body / except Exception as x: handler x] *)
Definition try_except {S A} (body : M World S A)
  (handler : exn -> M World S A) : M World S A :=
  fun s e =>
    match body s e with
    | (inl x, s', e') => handler x s' e'
    | (inr a, s', e') => (inr a, s', e')
    end.

(** [for item in items: body item] *)
Fixpoint for_each {S A} (items : list A) (body : A -> M World S unit)
  : M World S unit :=
  match items with
  | [] => ret tt
  | item :: rest => body item ;;; for_each rest body
  end.
End Control.

Section Programs.
Context {World : Type} (handle : Handler World).
Context (path_exists : World -> string -> bool).
Context (strip lower : string -> string).

(** *** rag_pipeline.py, [main] *)

(** The [while True] loop of [main], on the lines still to be read. *)
Fixpoint main_loop (lines : list string)
  : M World RAGPipeline.t (list string) :=
  match lines with
  | [] => raise EOFError
  | line :: rest =>
      let user_question := strip line in
      if py_in (lower user_question) main_exit_words then
        ret rest
      else if nonempty user_question then
        RAGPipeline.query handle user_question ;;;
        main_loop rest
      else
        main_loop rest
  end.

Definition main (stdin : list string) : M World unit (list string) :=
  fun u e =>
    let pdf_path := "documento.pdf" in
    if negb (path_exists (world e) pdf_path) then
      (inr stdin, u, e)
    else
      (rag <- RAGPipeline.init handle pdf_path
                RAGPipeline.default_persist_directory ;;
       with_object rag
         (try_except
            (RAGPipeline.initialize handle 1000 100 ;;;
             for_each example_questions
               (fun question =>
                  RAGPipeline.query handle question ;;; ret tt) ;;;
             main_loop stdin)
            (fun x => raise x))) u e.

(** *** ejemplo.py *)

Definition ejemplo_basico : M World unit unit :=
  rag <- RAGPipeline.init handle "documento.pdf"
           RAGPipeline.default_persist_directory ;;
  with_object rag
    (RAGPipeline.initialize handle 1000 100 ;;;
     for_each preguntas
       (fun pregunta => RAGPipeline.query handle pregunta ;;; ret tt)).

Definition ejemplo_paso_a_paso : M World unit unit :=
  rag <- RAGPipeline.init handle "documento.pdf" "./ejemplo_db" ;;
  with_object rag
    (RAGPipeline.load_pdf handle ;;;
     RAGPipeline.split_text handle 1000 100 ;;;
     RAGPipeline.create_vectorstore handle ;;;
     RAGPipeline.setup_qa_chain handle "gpt-4o-mini" ;;;
     RAGPipeline.query handle "¿De qué trata el documento?" ;;;
     ret tt).

(** The [while True] loop of [ejemplo_interactivo]. *)
Fixpoint ejemplo_loop (lines : list string)
  : M World RAGPipeline.t (list string) :=
  match lines with
  | [] => raise EOFError
  | line :: rest =>
      let pregunta := strip line in
      if py_in (lower pregunta) ejemplo_exit_words then
        ret rest
      else if negb (nonempty pregunta) then
        ejemplo_loop rest
      else
        try_except
          (RAGPipeline.query handle pregunta ;;; ret tt)
          (fun _ => ret tt) ;;;
        ejemplo_loop rest
  end.

Definition ejemplo_interactivo (stdin : list string)
  : M World unit (list string) :=
  match stdin with
  | [] => raise EOFError
  | line :: rest =>
      let pdf_path := py_or (strip line) "documento.pdf" in
      rag <- RAGPipeline.init handle pdf_path
               RAGPipeline.default_persist_directory ;;
      with_object rag
        (RAGPipeline.initialize handle RAGPipeline.default_chunk_size
           RAGPipeline.default_chunk_overlap ;;;
         ejemplo_loop rest)
  end.

(** The dispatch on [sys.argv] at the end of ejemplo.py. *)
Definition ejemplo_script (argv stdin : list string)
  : M World unit (list string) :=
  match argv with
  | _ :: modo :: _ =>
      if String.eqb modo "paso-a-paso" then
        ejemplo_paso_a_paso ;;; ret stdin
      else if String.eqb modo "interactivo" then
        ejemplo_interactivo stdin
      else
        ejemplo_basico ;;; ret stdin
  | _ => ejemplo_basico ;;; ret stdin
  end.

(** *** A console session, read off the lines

    The lines up to the first one that is an exit word once stripped and
    lowered, the lines after it, and the questions among lines: the
    stripped lines that are not empty. *)
Definition is_exit (words : list string) (line : string) : bool :=
  py_in (lower (strip line)) words.

Fixpoint before_exit (words lines : list string) : list string :=
  match lines with
  | [] => []
  | line :: rest =>
      if is_exit words line then [] else line :: before_exit words rest
  end.

Fixpoint after_exit (words lines : list string) : list string :=
  match lines with
  | [] => []
  | line :: rest =>
      if is_exit words line then rest else after_exit words rest
  end.

Definition has_exit (words lines : list string) : bool :=
  existsb (is_exit words) lines.

Definition questions (lines : list string) : list string :=
  filter nonempty (map strip lines).
End Programs.

(** The store [create_vectorstore] binds to a persist directory, the
    chain [setup_qa_chain] builds over it for a model name, and the chain
    [initialize] leaves. *)
Definition store_of (persist_directory : string) : Chroma :=
  mkChroma OpenAIEmbeddings persist_directory.

Definition chain_of (persist_directory model_name : string)
  : RetrievalQA :=
  mkRetrievalQA (mkLLM ChatOpenAI model_name 0) "stuff"
    (mkRetriever (store_of persist_directory) 3) true.

Definition default_chain (persist_directory : string) : RetrievalQA :=
  chain_of persist_directory RAGPipeline.default_model_name.

(** The store and the chain of an instance are the ones of its own
    persist directory. *)
Definition own_directory (self : RAGPipeline.t) : Prop :=
  (forall store, RAGPipeline.vectorstore self = Some store ->
                 store = store_of (RAGPipeline.persist_directory self)) /\
  (forall chain, RAGPipeline.qa_chain self = Some chain ->
                 exists model_name,
                   chain = chain_of (RAGPipeline.persist_directory self)
                                    model_name).

(** Two states of an instance with the same two paths. *)
Definition same_paths (self self' : RAGPipeline.t) : Prop :=
  RAGPipeline.pdf_path self' = RAGPipeline.pdf_path self /\
  RAGPipeline.persist_directory self' = RAGPipeline.persist_directory self.

(** Every attribute that is set in [self] is set in [self']. *)
Definition no_step_undone (self self' : RAGPipeline.t) : Prop :=
  (RAGPipeline.documents self <> None ->
   RAGPipeline.documents self' <> None) /\
  (RAGPipeline.text_chunks self <> None ->
   RAGPipeline.text_chunks self' <> None) /\
  (RAGPipeline.vectorstore self <> None ->
   RAGPipeline.vectorstore self' <> None) /\
  (RAGPipeline.qa_chain self <> None ->
   RAGPipeline.qa_chain self' <> None).

(** *** A console for the small outside world

    Strip and lower for texts of ASCII letters and blanks, and a world in
    which a path exists when the disk has a PDF under it. *)
Fixpoint strip_left (s : string) : string :=
  match s with
  | String c rest => if Ascii.eqb c " "%char then strip_left rest else s
  | EmptyString => EmptyString
  end.

Fixpoint reverse (acc s : string) : string :=
  match s with
  | EmptyString => acc
  | String c rest => reverse (String c acc) rest
  end.

Definition ascii_strip (s : string) : string :=
  reverse EmptyString (strip_left (reverse EmptyString (strip_left s))).

Definition lower_char (c : ascii) : ascii :=
  let n := nat_of_ascii c in
  if ((65 <=? n) && (n <=? 90))%nat then ascii_of_nat (n + 32) else c.

Fixpoint ascii_lower (s : string) : string :=
  match s with
  | EmptyString => EmptyString
  | String c rest => String (lower_char c) (ascii_lower rest)
  end.

Definition on_disk (w : Reference.World) (path : string) : bool :=
  match Reference.assoc path (Reference.disk w) with
  | Some _ => true
  | None => false
  end.

(** The small outside world without its PDF. *)
Definition world_no_pdf : Reference.World :=
  Reference.mkWorld [] [("OPENAI_API_KEY", "sk-test")] [] [] 0.

Definition unreachable : exn :=
  LibraryError "ConnectionError" "service unreachable".

(** The handler of the small outside world with the retrieval and model
    services down: every invocation of a chain, a retriever or a model
    raises. *)
Definition offline : Handler Reference.World :=
  fun X c =>
    match c in ExtCall X
          return Reference.World -> (exn + X) * Reference.World with
    | RetrievalQA_invoke _ _ => fun w => (inl unreachable, w)
    | Retriever_invoke _ _ => fun w => (inl unreachable, w)
    | LLM_invoke _ _ => fun w => (inl unreachable, w)
    | c' => Reference.handle _ c'
    end.

(** A session: a question, a blank line, a question, the exit word in
    capitals with blanks around it, and a line that is never read. *)
Definition session : list string :=
  ["hello?"; "   "; " world? "; " SALIR "; "ignored"].

End Scripts.

(** * Properties *)

(** ** Running a method: shared proof steps *)

(** Unfolds the monad so that a method becomes a cascade of matches on the
    handler's answers. *)
Ltac unfold_monad :=
  cbv beta delta [bind get_self modify ret raise call] in *; cbn in *.

(** Case analysis on the next library call in the goal. *)
Ltac next_call h :=
  match goal with
  | |- context [h ?X ?c ?w] =>
      let r := fresh "r" in
      let w' := fresh "w" in
      let Hc := fresh "Hcall" in
      destruct (h X c w) as [r w'] eqn:Hc; destruct r; cbn
  end.

(** The invariant [RAGPipeline.well_formed] after one more attribute has
    been assigned. *)
Ltac keep_well_formed Hwf :=
  destruct Hwf as [(? & ? & ?) ?];
  split;
  [ unfold RAGPipeline.in_order; cbn; intuition congruence
  | cbn; auto ].

Section Lifecycle.
Context {World : Type} (handle : Handler World).

(** *** The guards *)

Lemma split_text_guard cs co self (e : Ext World) :
  RAGPipeline.documents self = None ->
  RAGPipeline.split_text handle cs co self e =
  (inl (ValueError RAGPipeline.msg_no_documents), self, e).
Proof.
  intros H. unfold RAGPipeline.split_text. unfold_monad.
  rewrite H. reflexivity.
Qed.

Lemma create_vectorstore_guard self (e : Ext World) :
  RAGPipeline.text_chunks self = None ->
  RAGPipeline.create_vectorstore handle self e =
  (inl (ValueError RAGPipeline.msg_no_text_chunks), self, e).
Proof.
  intros H. unfold RAGPipeline.create_vectorstore. unfold_monad.
  rewrite H. reflexivity.
Qed.

Lemma setup_qa_chain_guard m self (e : Ext World) :
  RAGPipeline.vectorstore self = None ->
  RAGPipeline.setup_qa_chain handle m self e =
  (inl (ValueError RAGPipeline.msg_no_vectorstore), self, e).
Proof.
  intros H. unfold RAGPipeline.setup_qa_chain. unfold_monad.
  rewrite H. reflexivity.
Qed.

Lemma query_guard q self (e : Ext World) :
  RAGPipeline.qa_chain self = None ->
  RAGPipeline.query handle q self e =
  (inl (ValueError RAGPipeline.msg_no_qa_chain), self, e).
Proof.
  intros H. unfold RAGPipeline.query. unfold_monad.
  rewrite H. reflexivity.
Qed.

(** *** What one method does to the attributes

    Every method leaves the instance as it was or assigns its one
    attribute, and assigns it only when its guard passed. *)

Lemma load_pdf_self self (e : Ext World) :
  let s' := snd (fst (RAGPipeline.load_pdf handle self e)) in
  s' = self \/ exists docs, s' = RAGPipeline.set_documents (Some docs) self.
Proof.
  unfold RAGPipeline.load_pdf. unfold_monad.
  next_call handle; [now left|].
  next_call handle; [now left|].
  right. eauto.
Qed.

Lemma split_text_self cs co self (e : Ext World) :
  let s' := snd (fst (RAGPipeline.split_text handle cs co self e)) in
  s' = self \/
  (RAGPipeline.documents self <> None /\
   exists chunks, s' = RAGPipeline.set_text_chunks (Some chunks) self).
Proof.
  unfold RAGPipeline.split_text. unfold_monad.
  destruct (RAGPipeline.documents self) eqn:Hd; cbn; [|now left].
  next_call handle; [now left|].
  next_call handle; [now left|].
  right. split; [congruence | eauto].
Qed.

Lemma create_vectorstore_self self (e : Ext World) :
  let s' := snd (fst (RAGPipeline.create_vectorstore handle self e)) in
  s' = self \/
  (RAGPipeline.text_chunks self <> None /\
   exists store, s' = RAGPipeline.set_vectorstore (Some store) self).
Proof.
  unfold RAGPipeline.create_vectorstore. unfold_monad.
  destruct (RAGPipeline.text_chunks self) eqn:Hd; cbn; [|now left].
  next_call handle; [now left|].
  next_call handle; [now left|].
  right. split; [congruence | eauto].
Qed.

Lemma setup_qa_chain_self m self (e : Ext World) :
  let s' := snd (fst (RAGPipeline.setup_qa_chain handle m self e)) in
  s' = self \/
  (RAGPipeline.vectorstore self <> None /\
   exists chain, RAGPipeline.fixed_settings chain /\
                 s' = RAGPipeline.set_qa_chain (Some chain) self).
Proof.
  unfold RAGPipeline.setup_qa_chain. unfold_monad.
  destruct (RAGPipeline.vectorstore self) eqn:Hd; cbn; [|now left].
  next_call handle; [now left|].
  next_call handle; [now left|].
  next_call handle; [now left|].
  right. split; [congruence|]. eexists. split; [|reflexivity].
  split; reflexivity.
Qed.

Lemma query_self q self (e : Ext World) :
  snd (fst (RAGPipeline.query handle q self e)) = self.
Proof.
  unfold RAGPipeline.query. unfold_monad.
  destruct (RAGPipeline.qa_chain self); cbn; [|reflexivity].
  next_call handle; reflexivity.
Qed.

(** *** Sequencing *)

(** A property of the instance that every step keeps is kept by a
    sequence of steps, wherever an exception cuts it short. *)
Lemma bind_keeps {S A B} (P : S -> Prop)
      (m : M World S A) (k : A -> M World S B) s e :
  P (snd (fst (m s e))) ->
  (forall a s' e', P s' -> P (snd (fst (k a s' e')))) ->
  P (snd (fst (bind m k s e))).
Proof.
  intros Hm Hk. unfold bind.
  destruct (m s e) as [[[x|a] s'] e']; cbn in *; auto.
Qed.

Lemma ret_keeps {S A} (P : S -> Prop) (a : A) s (e : Ext World) :
  P s -> P (snd (fst (ret a s e))).
Proof. auto. Qed.

Lemma after_self o self (e : Ext World) :
  fst (RAGPipeline.after handle o self e) =
  match o with
  | RAGPipeline.call_load_pdf =>
      snd (fst (RAGPipeline.load_pdf handle self e))
  | RAGPipeline.call_split_text cs co =>
      snd (fst (RAGPipeline.split_text handle cs co self e))
  | RAGPipeline.call_create_vectorstore =>
      snd (fst (RAGPipeline.create_vectorstore handle self e))
  | RAGPipeline.call_setup_qa_chain m =>
      snd (fst (RAGPipeline.setup_qa_chain handle m self e))
  | RAGPipeline.call_initialize cs co =>
      snd (fst (RAGPipeline.initialize handle cs co self e))
  | RAGPipeline.call_query q =>
      snd (fst (RAGPipeline.query handle q self e))
  end.
Proof.
  destruct o; cbv beta iota delta [RAGPipeline.after].
  - now destruct (RAGPipeline.load_pdf handle self e) as [[? ?] ?].
  - now destruct (RAGPipeline.split_text handle _ _ self e) as [[? ?] ?].
  - now destruct (RAGPipeline.create_vectorstore handle self e)
      as [[? ?] ?].
  - now destruct (RAGPipeline.setup_qa_chain handle _ self e)
      as [[? ?] ?].
  - now destruct (RAGPipeline.initialize handle _ _ self e) as [[? ?] ?].
  - now destruct (RAGPipeline.query handle _ self e) as [[? ?] ?].
Qed.

(** *** The invariant of reachable instances *)

Lemma load_pdf_keeps self (e : Ext World) :
  RAGPipeline.well_formed self ->
  RAGPipeline.well_formed (snd (fst (RAGPipeline.load_pdf handle self e))).
Proof.
  intros Hwf. destruct (load_pdf_self self e) as [-> | [docs ->]]; auto.
  keep_well_formed Hwf.
Qed.

Lemma split_text_keeps cs co self (e : Ext World) :
  RAGPipeline.well_formed self ->
  RAGPipeline.well_formed
    (snd (fst (RAGPipeline.split_text handle cs co self e))).
Proof.
  intros Hwf.
  destruct (split_text_self cs co self e) as [-> | [Hg [c ->]]]; auto.
  keep_well_formed Hwf.
Qed.

Lemma create_vectorstore_keeps self (e : Ext World) :
  RAGPipeline.well_formed self ->
  RAGPipeline.well_formed
    (snd (fst (RAGPipeline.create_vectorstore handle self e))).
Proof.
  intros Hwf.
  destruct (create_vectorstore_self self e) as [-> | [Hg [c ->]]]; auto.
  keep_well_formed Hwf.
Qed.

Lemma setup_qa_chain_keeps m self (e : Ext World) :
  RAGPipeline.well_formed self ->
  RAGPipeline.well_formed
    (snd (fst (RAGPipeline.setup_qa_chain handle m self e))).
Proof.
  intros Hwf.
  destruct (setup_qa_chain_self m self e)
    as [-> | [Hg [c [Hc ->]]]]; auto.
  keep_well_formed Hwf. intros chain [= <-]. exact Hc.
Qed.

Lemma initialize_keeps cs co self (e : Ext World) :
  RAGPipeline.well_formed self ->
  RAGPipeline.well_formed
    (snd (fst (RAGPipeline.initialize handle cs co self e))).
Proof.
  intros Hwf. unfold RAGPipeline.initialize.
  apply bind_keeps; [now apply load_pdf_keeps|]; intros _ s1 e1 H1.
  apply bind_keeps; [now apply split_text_keeps|]; intros _ s2 e2 H2.
  apply bind_keeps; [now apply create_vectorstore_keeps|];
    intros _ s3 e3 H3.
  apply bind_keeps; [now apply setup_qa_chain_keeps|]; intros _ s4 e4 H4.
  now apply ret_keeps.
Qed.

Lemma after_keeps o self (e : Ext World) :
  RAGPipeline.well_formed self ->
  RAGPipeline.well_formed (fst (RAGPipeline.after handle o self e)).
Proof.
  intros Hwf. rewrite after_self. destruct o.
  - now apply load_pdf_keeps.
  - now apply split_text_keeps.
  - now apply create_vectorstore_keeps.
  - now apply setup_qa_chain_keeps.
  - now apply initialize_keeps.
  - now rewrite query_self.
Qed.

Lemma init_result pdf dir (e : Ext World) self e' :
  RAGPipeline.init handle pdf dir tt e = (inr self, tt, e') ->
  self = RAGPipeline.mk pdf dir None None None None.
Proof.
  unfold RAGPipeline.init. unfold_monad.
  next_call handle; [discriminate|].
  next_call handle; [discriminate|].
  destruct (truthy _); cbn; [|discriminate].
  intros H. now inversion H.
Qed.

Lemma reachable_well_formed self :
  RAGPipeline.Reachable handle self -> RAGPipeline.well_formed self.
Proof.
  induction 1 as [pdf dir e self e' Hinit | o self e Hr IH].
  - apply init_result in Hinit. subst self.
    split; [unfold RAGPipeline.in_order; cbn; intuition congruence|].
    cbn. congruence.
  - now apply after_keeps.
Qed.

(** *** Attributes no call has assigned yet *)

Lemma qa_chain_untouched o self (e : Ext World) :
  RAGPipeline.sets_qa_chain o = false ->
  RAGPipeline.qa_chain (fst (RAGPipeline.after handle o self e)) =
  RAGPipeline.qa_chain self.
Proof.
  intros Ho. rewrite after_self.
  destruct o as [|cs co| |m|cs co|q]; try discriminate.
  - destruct (load_pdf_self self e) as [-> | [? ->]]; reflexivity.
  - destruct (split_text_self cs co self e)
      as [-> | [_ [? ->]]]; reflexivity.
  - destruct (create_vectorstore_self self e)
      as [-> | [_ [? ->]]]; reflexivity.
  - now rewrite query_self.
Qed.

Lemma documents_untouched o self (e : Ext World) :
  RAGPipeline.sets_documents o = false ->
  RAGPipeline.documents (fst (RAGPipeline.after handle o self e)) =
  RAGPipeline.documents self.
Proof.
  intros Ho. rewrite after_self.
  destruct o as [|cs co| |m|cs co|q]; try discriminate.
  - destruct (split_text_self cs co self e)
      as [-> | [_ [? ->]]]; reflexivity.
  - destruct (create_vectorstore_self self e)
      as [-> | [_ [? ->]]]; reflexivity.
  - destruct (setup_qa_chain_self m self e)
      as [-> | [_ [? [_ ->]]]]; reflexivity.
  - now rewrite query_self.
Qed.

Lemma text_chunks_untouched o self (e : Ext World) :
  RAGPipeline.sets_text_chunks o = false ->
  RAGPipeline.text_chunks (fst (RAGPipeline.after handle o self e)) =
  RAGPipeline.text_chunks self.
Proof.
  intros Ho. rewrite after_self.
  destruct o as [|cs co| |m|cs co|q]; try discriminate.
  - destruct (load_pdf_self self e) as [-> | [? ->]]; reflexivity.
  - destruct (create_vectorstore_self self e)
      as [-> | [_ [? ->]]]; reflexivity.
  - destruct (setup_qa_chain_self m self e)
      as [-> | [_ [? [_ ->]]]]; reflexivity.
  - now rewrite query_self.
Qed.

Lemma vectorstore_untouched o self (e : Ext World) :
  RAGPipeline.sets_vectorstore o = false ->
  RAGPipeline.vectorstore (fst (RAGPipeline.after handle o self e)) =
  RAGPipeline.vectorstore self.
Proof.
  intros Ho. rewrite after_self.
  destruct o as [|cs co| |m|cs co|q]; try discriminate.
  - destruct (load_pdf_self self e) as [-> | [? ->]]; reflexivity.
  - destruct (split_text_self cs co self e)
      as [-> | [_ [? ->]]]; reflexivity.
  - destruct (setup_qa_chain_self m self e)
      as [-> | [_ [? [_ ->]]]]; reflexivity.
  - now rewrite query_self.
Qed.

(** An attribute that no call in a history assigns is what it was at
    the start. *)
Lemma history_untouched {A} (attr : RAGPipeline.t -> A)
      (sets : RAGPipeline.Op -> bool) :
  (forall o self (e : Ext World), sets o = false ->
      attr (fst (RAGPipeline.after handle o self e)) = attr self) ->
  forall ops self (e : Ext World),
    RAGPipeline.none_of sets ops = true ->
    attr (fst (RAGPipeline.after_all handle ops self e)) = attr self.
Proof.
  intros Hstep. induction ops as [|o ops IH]; intros self e Hn.
  - reflexivity.
  - cbn in Hn. apply andb_true_iff in Hn as [Ho Hn].
    apply negb_true_iff in Ho. cbn.
    destruct (RAGPipeline.after handle o self e) as [s1 e1] eqn:Ha.
    rewrite IH by assumption.
    change s1 with (fst (s1, e1)). rewrite <- Ha. now apply Hstep.
Qed.

Lemma ready_iff self :
  RAGPipeline.lifecycle self = RAGPipeline.Ready <->
  RAGPipeline.qa_chain self <> None.
Proof.
  unfold RAGPipeline.lifecycle.
  destruct (RAGPipeline.qa_chain self), (RAGPipeline.vectorstore self),
    (RAGPipeline.text_chunks self), (RAGPipeline.documents self);
    split; intros H; congruence.
Qed.

Lemma query_success q self (e : Ext World) response self' e' :
  RAGPipeline.query handle q self e = (inr response, self', e') ->
  RAGPipeline.qa_chain self <> None /\ self' = self.
Proof.
  intros H. split.
  - intros Hnone. rewrite (query_guard q self e Hnone) in H. discriminate.
  - pose proof (query_self q self e) as Hs. now rewrite H in Hs.
Qed.

(** C1. [query] on an instance whose QA chain is not configured raises
    the [ValueError] of its guard (the error the specification calls
    PipelineNotReady) and changes neither the instance nor the outside
    world; this is the case of every instance on which neither
    [setup_qa_chain] nor [initialize] has been called since it was
    constructed.  A [query] that returns was called on an instance in the
    [Ready] stage, which for an instance a program can hold means that
    all four attributes are set. *)
Theorem query_needs_qa_chain
        (question : string) (self : RAGPipeline.t) (e : Ext World) :
  (RAGPipeline.qa_chain self = None ->
   RAGPipeline.query handle question self e =
   (inl (ValueError RAGPipeline.msg_no_qa_chain), self, e)) /\
  (forall pdf_path persist_directory e0 new e1 ops,
      RAGPipeline.init handle pdf_path persist_directory tt e0 =
      (inr new, tt, e1) ->
      RAGPipeline.none_of RAGPipeline.sets_qa_chain ops = true ->
      RAGPipeline.after_all handle ops new e1 = (self, e) ->
      RAGPipeline.query handle question self e =
      (inl (ValueError RAGPipeline.msg_no_qa_chain), self, e)) /\
  (forall response self' e',
      RAGPipeline.query handle question self e = (inr response, self', e') ->
      RAGPipeline.lifecycle self = RAGPipeline.Ready /\
      self' = self /\
      (RAGPipeline.Reachable handle self ->
       RAGPipeline.documents self <> None /\
       RAGPipeline.text_chunks self <> None /\
       RAGPipeline.vectorstore self <> None)).
Proof.
  split; [apply query_guard|]. split.
  - intros pdf dir e0 new e1 ops Hinit Hops Hafter.
    apply query_guard.
    pose proof (history_untouched RAGPipeline.qa_chain
                  RAGPipeline.sets_qa_chain qa_chain_untouched
                  ops new e1 Hops) as Hq.
    rewrite Hafter in Hq. cbn in Hq. rewrite Hq.
    apply init_result in Hinit. now subst new.
  - intros response self' e' Hq.
    apply query_success in Hq as [Hset ->].
    split; [now apply ready_iff|]. split; [reflexivity|].
    intros Hr. apply reachable_well_formed in Hr as [(H1 & H2 & H3) _].
    auto.
Qed.

(** C2. Each ingestion step raises the [ValueError] of its guard (the
    error the specification calls OutOfOrderOperation) when the attribute
    the previous step assigns is still [None]: [split_text] without
    [documents], [create_vectorstore] without [text_chunks],
    [setup_qa_chain] without [vectorstore].  The instance and the outside
    world are left as they were.  On an instance on which the previous
    step (or [initialize]) has not been called since construction, that
    attribute is [None]. *)
Theorem steps_need_previous_output
        (self : RAGPipeline.t) (e : Ext World)
        (chunk_size chunk_overlap : Z) (model_name : string) :
  (RAGPipeline.documents self = None ->
   RAGPipeline.split_text handle chunk_size chunk_overlap self e =
   (inl (ValueError RAGPipeline.msg_no_documents), self, e)) /\
  (RAGPipeline.text_chunks self = None ->
   RAGPipeline.create_vectorstore handle self e =
   (inl (ValueError RAGPipeline.msg_no_text_chunks), self, e)) /\
  (RAGPipeline.vectorstore self = None ->
   RAGPipeline.setup_qa_chain handle model_name self e =
   (inl (ValueError RAGPipeline.msg_no_vectorstore), self, e)) /\
  (forall pdf_path persist_directory e0 new e1 ops,
      RAGPipeline.init handle pdf_path persist_directory tt e0 =
      (inr new, tt, e1) ->
      RAGPipeline.after_all handle ops new e1 = (self, e) ->
      (RAGPipeline.none_of RAGPipeline.sets_documents ops = true ->
       RAGPipeline.documents self = None) /\
      (RAGPipeline.none_of RAGPipeline.sets_text_chunks ops = true ->
       RAGPipeline.text_chunks self = None) /\
      (RAGPipeline.none_of RAGPipeline.sets_vectorstore ops = true ->
       RAGPipeline.vectorstore self = None)).
Proof.
  split; [apply split_text_guard|].
  split; [apply create_vectorstore_guard|].
  split; [apply setup_qa_chain_guard|].
  intros pdf dir e0 new e1 ops Hinit Hafter.
  apply init_result in Hinit.
  repeat split; intros Hops.
  - pose proof (history_untouched RAGPipeline.documents _
                  documents_untouched ops new e1 Hops) as H.
    rewrite Hafter in H. cbn in H. rewrite H. now subst new.
  - pose proof (history_untouched RAGPipeline.text_chunks _
                  text_chunks_untouched ops new e1 Hops) as H.
    rewrite Hafter in H. cbn in H. rewrite H. now subst new.
  - pose proof (history_untouched RAGPipeline.vectorstore _
                  vectorstore_untouched ops new e1 Hops) as H.
    rewrite Hafter in H. cbn in H. rewrite H. now subst new.
Qed.

(** C10. When [OPENAI_API_KEY] is unset once [.env] has been loaded, the
    constructor raises [ValueError] and the only calls it has made are
    [load_dotenv] and [os.getenv]: no loader, splitter, embedding, store
    or model call.  An instance the constructor returns has [documents],
    [text_chunks], [vectorstore] and [qa_chain] all [None], so it is in
    the [Uninitialized] stage. *)
Theorem init_checks_api_key
        (pdf_path persist_directory : string) (e : Ext World) :
  (forall w1 w2,
      handle _ load_dotenv (world e) = (inr tt, w1) ->
      handle _ (os_getenv "OPENAI_API_KEY") w1 = (inr None, w2) ->
      RAGPipeline.init handle pdf_path persist_directory tt e =
      (inl (ValueError RAGPipeline.msg_no_api_key), tt,
       mkExt w2 (trace e ++ [Ev load_dotenv;
                             Ev (os_getenv "OPENAI_API_KEY")]))) /\
  (forall self e',
      RAGPipeline.init handle pdf_path persist_directory tt e =
      (inr self, tt, e') ->
      RAGPipeline.documents self = None /\
      RAGPipeline.text_chunks self = None /\
      RAGPipeline.vectorstore self = None /\
      RAGPipeline.qa_chain self = None /\
      RAGPipeline.lifecycle self = RAGPipeline.Uninitialized /\
      RAGPipeline.pdf_path self = pdf_path /\
      RAGPipeline.persist_directory self = persist_directory).
Proof.
  split.
  - intros w1 w2 H1 H2. unfold RAGPipeline.init. unfold_monad.
    rewrite H1. cbn. rewrite H2. cbn. rewrite <- app_assoc. reflexivity.
  - intros self e' Hinit. apply init_result in Hinit. subst self.
    cbn. repeat split.
Qed.

(** The constructor treats an empty key like a missing one. *)
Lemma init_rejects_empty_key pdf dir (e : Ext World) w1 w2 :
  handle _ load_dotenv (world e) = (inr tt, w1) ->
  handle _ (os_getenv "OPENAI_API_KEY") w1 = (inr (Some ""), w2) ->
  fst (fst (RAGPipeline.init handle pdf dir tt e)) =
  inl (ValueError RAGPipeline.msg_no_api_key).
Proof.
  intros H1 H2. unfold RAGPipeline.init. unfold_monad.
  rewrite H1. cbn. rewrite H2. reflexivity.
Qed.

(** *** The steps when their guard passes *)


(** C3, as the code has it.  [split_text] does not compare
    [chunk_overlap] with [chunk_size]: it hands both, unchanged, to the
    constructor of the library's splitter.  When that constructor raises,
    the exception leaves [split_text] before any page is split, with the
    instance unchanged; and once [documents] is set, an exception that
    leaves [split_text] is always one a library call raised. *)
Theorem split_text_leaves_validation_to_splitter
        (chunk_size chunk_overlap : Z) (self : RAGPipeline.t)
        (e : Ext World) (docs : list Document) :
  RAGPipeline.documents self = Some docs ->
  let ts := mkTextSplitter chunk_size chunk_overlap (Some py_len) None in
  (forall x w1,
      handle _ (TextSplitter_new ts) (world e) = (inl x, w1) ->
      RAGPipeline.split_text handle chunk_size chunk_overlap self e =
      (inl x, self, mkExt w1 (trace e ++ [Ev (TextSplitter_new ts)]))) /\
  (forall x self' e',
      RAGPipeline.split_text handle chunk_size chunk_overlap self e =
      (inl x, self', e') ->
      self' = self /\
      ((exists w1,
           handle _ (TextSplitter_new ts) (world e) = (inl x, w1)) \/
       (exists w1 w2,
           handle _ (TextSplitter_new ts) (world e) = (inr tt, w1) /\
           handle _ (TextSplitter_split_documents ts docs) w1 =
           (inl x, w2)))).
Proof.
  intros Hdocs ts. split.
  - intros x w1 Hnew. unfold RAGPipeline.split_text. unfold_monad.
    rewrite Hdocs. cbn. fold ts. rewrite Hnew. reflexivity.
  - intros x self' e'. unfold RAGPipeline.split_text. unfold_monad.
    rewrite Hdocs. cbn. fold ts.
    destruct (handle _ (TextSplitter_new ts) (world e))
      as [[x1|[]] w1] eqn:Hnew; cbn.
    + intros H. inversion H. subst. split; [reflexivity|]. left. eauto.
    + destruct (handle _ (TextSplitter_split_documents ts docs) w1)
        as [[x2|chunks] w2] eqn:Hsplit; cbn; [|discriminate].
      intros H. inversion H. subst. split; [reflexivity|]. right. eauto.
Qed.

(** C5, as the code has it.  [split_text] builds the library's splitter
    from exactly the [chunk_size] and [chunk_overlap] it was given (with
    [len] as length function), hands it all loaded pages, and stores and
    returns what the splitter returns, untouched.  So whatever the
    splitter guarantees of its output for that configuration and those
    pages holds of the chunks of [split_text], and nothing else does. *)
Theorem split_text_returns_splitter_output
        (chunk_size chunk_overlap : Z) (self : RAGPipeline.t)
        (e : Ext World) (docs : list Document)
        (guaranteed : list Document -> Prop) :
  RAGPipeline.documents self = Some docs ->
  let ts := mkTextSplitter chunk_size chunk_overlap (Some py_len) None in
  (forall w chunks w',
      handle _ (TextSplitter_split_documents ts docs) w = (inr chunks, w') ->
      guaranteed chunks) ->
  (forall w1 chunks w2,
      handle _ (TextSplitter_new ts) (world e) = (inr tt, w1) ->
      handle _ (TextSplitter_split_documents ts docs) w1 =
      (inr chunks, w2) ->
      RAGPipeline.split_text handle chunk_size chunk_overlap self e =
      (inr chunks, RAGPipeline.set_text_chunks (Some chunks) self,
       mkExt w2 (trace e ++ [Ev (TextSplitter_new ts);
                             Ev (TextSplitter_split_documents ts docs)])))
  /\
  (forall chunks self' e',
      RAGPipeline.split_text handle chunk_size chunk_overlap self e =
      (inr chunks, self', e') ->
      guaranteed chunks /\
      RAGPipeline.text_chunks self' = Some chunks /\
      exists w1 w2,
        handle _ (TextSplitter_new ts) (world e) = (inr tt, w1) /\
        handle _ (TextSplitter_split_documents ts docs) w1 =
        (inr chunks, w2)).
Proof.
  intros Hdocs ts Hg. split.
  - intros w1 chunks w2 Hnew Hsplit.
    unfold RAGPipeline.split_text. unfold_monad.
    rewrite Hdocs. cbn. fold ts. rewrite Hnew. cbn. rewrite Hsplit. cbn.
    rewrite <- app_assoc. reflexivity.
  - intros chunks self' e'. unfold RAGPipeline.split_text. unfold_monad.
    rewrite Hdocs. cbn. fold ts.
    destruct (handle _ (TextSplitter_new ts) (world e))
      as [[x1|[]] w1] eqn:Hnew; cbn; [discriminate|].
    destruct (handle _ (TextSplitter_split_documents ts docs) w1)
      as [[x2|chunks'] w2] eqn:Hsplit; cbn; [discriminate|].
    intros H. inversion H. subst.
    split; [eapply Hg; eassumption|]. split; [reflexivity|]. eauto.
Qed.

Lemma create_vectorstore_result self (e : Ext World) store self' e' :
  RAGPipeline.create_vectorstore handle self e = (inr store, self', e') ->
  exists chunks,
    RAGPipeline.text_chunks self = Some chunks /\
    store = mkChroma OpenAIEmbeddings (RAGPipeline.persist_directory self) /\
    self' = RAGPipeline.set_vectorstore (Some store) self /\
    trace e' =
    (trace e ++ [Ev (Embeddings_new OpenAIEmbeddings);
                 Ev (Chroma_from_documents chunks OpenAIEmbeddings
                       (RAGPipeline.persist_directory self))])%list.
Proof.
  unfold RAGPipeline.create_vectorstore. unfold_monad.
  destruct (RAGPipeline.text_chunks self) as [chunks|]; cbn;
    [|discriminate].
  next_call handle; [discriminate|].
  next_call handle; [discriminate|].
  intros H. inversion H. subst. cbn. rewrite <- app_assoc.
  exists chunks. repeat split.
Qed.

(** C4, as the code has it.  [create_vectorstore] hands the whole list
    [text_chunks] to [Chroma.from_documents], without ids and for the
    persist directory of the instance, every time it runs: it keeps no
    record of what it handed over before and filters nothing.  Two runs
    in a row make the same submission twice. *)
Theorem create_vectorstore_submits_all_chunks_again
        (self : RAGPipeline.t) (e : Ext World) (chunks : list Document)
        store1 self1 e1 store2 self2 e2 :
  RAGPipeline.text_chunks self = Some chunks ->
  RAGPipeline.create_vectorstore handle self e = (inr store1, self1, e1) ->
  RAGPipeline.create_vectorstore handle self1 e1 =
  (inr store2, self2, e2) ->
  let submission :=
    [Ev (Embeddings_new OpenAIEmbeddings);
     Ev (Chroma_from_documents chunks OpenAIEmbeddings
           (RAGPipeline.persist_directory self))] in
  trace e2 = (trace e ++ submission ++ submission)%list /\
  store2 = store1 /\
  self2 = self1 /\
  RAGPipeline.text_chunks self2 = Some chunks.
Proof.
  intros Hchunks H1 H2 submission.
  apply create_vectorstore_result in H1
    as (c1 & Hc1 & Hs1 & Hself1 & Ht1).
  apply create_vectorstore_result in H2
    as (c2 & Hc2 & Hs2 & Hself2 & Ht2).
  rewrite Hchunks in Hc1. inversion Hc1. subst c1.
  subst self1. cbn in *. rewrite Hchunks in Hc2. inversion Hc2. subst c2.
  subst store1 store2. subst self2. cbn.
  rewrite Ht2, Ht1. rewrite <- app_assoc.
  repeat split; assumption.
Qed.

End Lifecycle.

(** ** Strings *)

Lemma string_app_assoc (a b c : string) : (a ++ b) ++ c = a ++ (b ++ c).
Proof. induction a as [|x a IH]; cbn; [reflexivity | now rewrite IH]. Qed.




(** ** The context block *)



Lemma prompt_shape (context question : string) :
  SimpleRAGPipeline.prompt context question =
  SimpleRAGPipeline.before_context ++ context ++
  SimpleRAGPipeline.after_context question.
Proof.
  unfold SimpleRAGPipeline.prompt, SimpleRAGPipeline.before_context,
    SimpleRAGPipeline.after_context.
  now rewrite !string_app_assoc.
Qed.

Section Simple.
Context {World : Type} (handle : Handler World).

Lemma simple_init_result pdf db (e : Ext World) self e' :
  SimpleRAGPipeline.init handle pdf db tt e = (inr self, tt, e') ->
  let store :=
    mkChroma (HuggingFaceEmbeddings
                SimpleRAGPipeline.embedding_model_name) db in
  self = SimpleRAGPipeline.mk store (mkLLM Ollama "llama3.2" 0)
                              (mkRetriever store 3).
Proof.
  unfold SimpleRAGPipeline.init. unfold_monad.
  do 8 (next_call handle; [discriminate|]).
  intros H. now inversion H.
Qed.


(** C7. When the retriever returns [docs] for the question and the model
    returns [s] for the assembled prompt, [query] returns exactly
    [{result: s, source_documents: docs, query: question}]: the answer
    verbatim, the retrieved documents in retrieval order (hence their
    metadata, the references to their sources, in that order), and the
    question.  On a pipeline built by the constructor the retriever asked
    is the one with k = 3. *)
Theorem query_returns_answer_and_sources
        (question : string) (self : SimpleRAGPipeline.t) (e : Ext World)
        (docs : list Document) (w1 : World) (s : string) (w2 : World) :
  handle _ (Retriever_invoke (SimpleRAGPipeline.retriever self) question)
         (world e) = (inr docs, w1) ->
  handle _ (LLM_invoke (SimpleRAGPipeline.llm self)
              (SimpleRAGPipeline.prompt (SimpleRAGPipeline.context docs)
                                        question))
         w1 = (inr s, w2) ->
  (exists response e',
      SimpleRAGPipeline.query handle question self e =
      (inr response, self, e') /\
      Response.result response = s /\
      Response.source_documents response = docs /\
      map metadata (Response.source_documents response) =
      map metadata docs /\
      Response.query response = question /\
      world e' = w2) /\
  (forall pdf_path db_path e0 e1,
      SimpleRAGPipeline.init handle pdf_path db_path tt e0 =
      (inr self, tt, e1) ->
      search_k (SimpleRAGPipeline.retriever self) = 3%Z).
Proof.
  intros Hret Hllm. split.
  - unfold SimpleRAGPipeline.query. unfold_monad.
    rewrite Hret. cbn. rewrite Hllm. cbn.
    eexists. eexists. split; [reflexivity|]. cbn. repeat split.
  - intros pdf db e0 e1 Hinit. apply simple_init_result in Hinit.
    now subst self.
Qed.
End Simple.

(** ** The settings the classes fix *)

Section Settings.
Context {World : Type} (handle : Handler World).



End Settings.

(** ** Runs in the small outside world *)

Lemma query_needs_qa_chain_witness :
  RAGPipeline.query Reference.handle "q" Reference.fresh
    (Reference.start Reference.world0) =
  (inl (ValueError RAGPipeline.msg_no_qa_chain), Reference.fresh,
   Reference.start Reference.world0) /\
  RAGPipeline.query Reference.handle "q" (fst Reference.chunked)
    (snd Reference.chunked) =
  (inl (ValueError RAGPipeline.msg_no_qa_chain), fst Reference.chunked,
   snd Reference.chunked) /\
  RAGPipeline.lifecycle (fst Reference.ingested) = RAGPipeline.Ready.
Proof.
  split; [|split].
  - apply (proj1 (query_needs_qa_chain Reference.handle "q"
                    Reference.fresh (Reference.start Reference.world0))).
    reflexivity.
  - eapply (proj1 (proj2 (query_needs_qa_chain Reference.handle "q"
                            (fst Reference.chunked)
                            (snd Reference.chunked)))
              "documento.pdf" "./db" (Reference.start Reference.world0) _ _
              [RAGPipeline.call_load_pdf; RAGPipeline.call_split_text 10 0]).
    + vm_compute. reflexivity.
    + reflexivity.
    + vm_compute. reflexivity.
  - eapply (proj2 (proj2 (query_needs_qa_chain Reference.handle "q"
                            (fst Reference.ingested)
                            (snd Reference.ingested)))).
    vm_compute. reflexivity.
Defined.

Lemma steps_need_previous_output_witness :
  RAGPipeline.split_text Reference.handle 1000 100 Reference.fresh
    Reference.constructed =
  (inl (ValueError RAGPipeline.msg_no_documents), Reference.fresh,
   Reference.constructed) /\
  RAGPipeline.create_vectorstore Reference.handle (fst Reference.loaded)
    (snd Reference.loaded) =
  (inl (ValueError RAGPipeline.msg_no_text_chunks), fst Reference.loaded,
   snd Reference.loaded) /\
  RAGPipeline.setup_qa_chain Reference.handle "gpt-4o-mini"
    (fst Reference.chunked) (snd Reference.chunked) =
  (inl (ValueError RAGPipeline.msg_no_vectorstore), fst Reference.chunked,
   snd Reference.chunked) /\
  RAGPipeline.vectorstore (fst Reference.chunked) = None.
Proof.
  split; [|split; [|split]].
  - apply (proj1 (steps_need_previous_output Reference.handle
                    Reference.fresh Reference.constructed 1000 100 "")).
    reflexivity.
  - apply (proj1 (proj2 (steps_need_previous_output Reference.handle
                           (fst Reference.loaded) (snd Reference.loaded)
                           0 0 ""))).
    reflexivity.
  - apply (proj1 (proj2 (proj2 (steps_need_previous_output
                                  Reference.handle
                                  (fst Reference.chunked)
                                  (snd Reference.chunked)
                                  0 0 "gpt-4o-mini")))).
    reflexivity.
  - eapply (proj2 (proj2 (proj2 (steps_need_previous_output
                                   Reference.handle
                                   (fst Reference.chunked)
                                   (snd Reference.chunked) 0 0 "")))
              "documento.pdf" "./db" (Reference.start Reference.world0) _ _
              [RAGPipeline.call_load_pdf; RAGPipeline.call_split_text 10 0]).
    + vm_compute. reflexivity.
    + vm_compute. reflexivity.
    + reflexivity.
Defined.

Lemma init_checks_api_key_witness :
  RAGPipeline.init Reference.handle "documento.pdf" "./db" tt
    (Reference.start Reference.world_no_key) =
  (inl (ValueError RAGPipeline.msg_no_api_key), tt,
   mkExt Reference.world_no_key
         [Ev load_dotenv; Ev (os_getenv "OPENAI_API_KEY")]) /\
  RAGPipeline.lifecycle Reference.fresh = RAGPipeline.Uninitialized.
Proof.
  split.
  - eapply (proj1 (init_checks_api_key Reference.handle "documento.pdf"
                     "./db" (Reference.start Reference.world_no_key)));
      reflexivity.
  - eapply (proj2 (init_checks_api_key Reference.handle "documento.pdf"
                     "./db" (Reference.start Reference.world0))).
    vm_compute. reflexivity.
Defined.

(** C3, the claim as stated, in the small outside world, whose splitter
    constructor accepts what the library's accepts: with [chunk_size] =
    [chunk_overlap] = 10 the overlap is not smaller than the size, yet
    [split_text] raises nothing and returns chunks. *)
Lemma split_text_accepts_overlap_equal_to_size :
  (10 >= 10)%Z /\
  RAGPipeline.documents (fst Reference.loaded) = Some [Reference.page] /\
  (exists chunks self' e',
      RAGPipeline.split_text Reference.handle 10 10
        (fst Reference.loaded) (snd Reference.loaded) =
      (inr chunks, self', e') /\
      map page_content chunks = ["hello"; "world"]) /\
  ~ (exists x self' e',
        RAGPipeline.split_text Reference.handle 10 10
          (fst Reference.loaded) (snd Reference.loaded) =
        (inl x, self', e')).
Proof.
  split; [lia|]. split; [reflexivity|]. split.
  - do 3 eexists. split; vm_compute; reflexivity.
  - intros (x & self' & e' & H). vm_compute in H. discriminate.
Defined.

Lemma split_text_leaves_validation_to_splitter_witness :
  RAGPipeline.split_text Reference.handle 10 20
    (fst Reference.loaded) (snd Reference.loaded) =
  (inl (ValueError "bad chunk_size or chunk_overlap"),
   fst Reference.loaded,
   mkExt (world (snd Reference.loaded))
         (trace (snd Reference.loaded) ++
          [Ev (TextSplitter_new (mkTextSplitter 10 20 (Some py_len) None))])).
Proof.
  apply (proj1 (split_text_leaves_validation_to_splitter Reference.handle
                  10 20 (fst Reference.loaded) (snd Reference.loaded)
                  [Reference.page] eq_refl)).
  reflexivity.
Defined.

(** C5, the claim as stated, in the small outside world, whose splitter
    cuts this page where the library's does: with the valid configuration
    size 10, overlap 0, the page "hello world" comes back as the chunks
    "hello" and "world"; put together again they give "helloworld", not the
    page. *)
Lemma split_text_chunks_do_not_reassemble :
  (0 < 10)%Z /\
  RAGPipeline.documents (fst Reference.loaded) = Some [Reference.page] /\
  exists chunks self' e',
    RAGPipeline.split_text Reference.handle 10 0
      (fst Reference.loaded) (snd Reference.loaded) =
    (inr chunks, self', e') /\
    reassemble 0 (map page_content chunks) <>
    page_content Reference.page.
Proof.
  split; [lia|]. split; [reflexivity|].
  do 3 eexists. split; [vm_compute; reflexivity|].
  vm_compute. discriminate.
Defined.

Lemma split_text_returns_splitter_output_witness :
  match fst (fst (RAGPipeline.split_text Reference.handle 10 0
                    (fst Reference.loaded) (snd Reference.loaded))) with
  | inr chunks =>
      Forall (fun c => String.length (page_content c) <= 10)%nat chunks
  | inl _ => False
  end.
Proof.
  destruct (RAGPipeline.split_text Reference.handle 10 0
              (fst Reference.loaded) (snd Reference.loaded))
    as [[[x|chunks] self'] e'] eqn:Hrun; cbn.
  - vm_compute in Hrun. discriminate.
  - refine (proj1 (proj2 (split_text_returns_splitter_output
                            Reference.handle 10 0 (fst Reference.loaded)
                            (snd Reference.loaded) [Reference.page]
                            (Forall (fun c => String.length (page_content c)
                                              <= 10)%nat)
                            eq_refl _) chunks self' e' Hrun)).
    intros w out w' H. cbn in H. inversion H.
    repeat constructor.
Defined.

(** C4, the claim as stated, in the small outside world, whose store
    appends under fresh ids as the library's does when it is given none:
    after a second [initialize] on the same PDF and persist directory the
    collection holds the chunk "hello" of page 0 twice, and the three
    nearest documents are no longer the ones found after the first. *)
Lemma reingestion_duplicates_entries :
  (exists i j a b,
      i <> j /\
      nth_error (Reference.collection "./db"
                   (world (snd Reference.ingested_twice))) i = Some a /\
      nth_error (Reference.collection "./db"
                   (world (snd Reference.ingested_twice))) j = Some b /\
      Reference.same_identity a b) /\
  fst (fst (RAGPipeline.query Reference.handle "hello?"
              (fst Reference.ingested_twice)
              (snd Reference.ingested_twice))) <>
  fst (fst (RAGPipeline.query Reference.handle "hello?"
              (fst Reference.ingested) (snd Reference.ingested))).
Proof.
  split.
  - exists 0%nat, 2%nat. do 2 eexists.
    split; [discriminate|].
    split; [vm_compute; reflexivity|].
    split; [vm_compute; reflexivity|].
    split; reflexivity.
  - vm_compute. discriminate.
Defined.

Lemma create_vectorstore_submits_all_chunks_again_witness :
  let '(_, self1, e1) :=
    RAGPipeline.create_vectorstore Reference.handle
      (fst Reference.chunked) (snd Reference.chunked) in
  let '(_, self2, e2) :=
    RAGPipeline.create_vectorstore Reference.handle self1 e1 in
  self2 = self1 /\
  List.length (trace e2) =
  (List.length (trace (snd Reference.chunked)) + 4)%nat.
Proof.
  destruct (RAGPipeline.create_vectorstore Reference.handle
              (fst Reference.chunked) (snd Reference.chunked))
    as [[[x1|store1] self1] e1] eqn:Hrun1;
    [vm_compute in Hrun1; discriminate|].
  destruct (RAGPipeline.create_vectorstore Reference.handle self1 e1)
    as [[[x2|store2] self2] e2] eqn:Hrun2.
  - exfalso. vm_compute in Hrun1. inversion Hrun1. subst.
    vm_compute in Hrun2. discriminate.
  - pose proof (create_vectorstore_submits_all_chunks_again
                  Reference.handle (fst Reference.chunked)
                  (snd Reference.chunked)
                  (Reference.split_documents
                     (mkTextSplitter 10 0 (Some py_len) None)
                     [Reference.page])
                  store1 self1 e1 store2 self2 e2
                  eq_refl Hrun1 Hrun2) as (Htrace & _ & Hself & _).
    split; [exact Hself|].
    rewrite Htrace. rewrite !length_app. reflexivity.
Defined.


Lemma query_returns_answer_and_sources_witness :
  exists response e',
    SimpleRAGPipeline.query Reference.handle "q"
      Reference.simple_pipeline Reference.simple_ext =
    (inr response, Reference.simple_pipeline, e') /\
    Response.result response = Reference.model_reply /\
    Response.source_documents response = [Reference.page] /\
    map metadata (Response.source_documents response) =
    map metadata [Reference.page] /\
    Response.query response = "q" /\
    world e' = world Reference.simple_ext.
Proof.
  apply (proj1 (query_returns_answer_and_sources Reference.handle "q"
                  Reference.simple_pipeline Reference.simple_ext
                  [Reference.page]
                  (world Reference.simple_ext)
                  Reference.model_reply
                  (world Reference.simple_ext) eq_refl eq_refl)).
Defined.




(** * Further properties of the code *)

(** ** rag_pipeline.py: what each method does to the instance *)

Section Steps.
Context {World : Type} (handle : Handler World).

(** The outcome of each step and the instance it leaves. *)
Lemma load_pdf_cases self (e : Ext World) :
  match RAGPipeline.load_pdf handle self e with
  | (inl _, self', _) => self' = self
  | (inr docs, self', _) =>
      self' = RAGPipeline.set_documents (Some docs) self
  end.
Proof.
  unfold RAGPipeline.load_pdf. unfold_monad.
  next_call handle; [reflexivity|].
  next_call handle; reflexivity.
Qed.

Lemma split_text_cases cs co self (e : Ext World) :
  match RAGPipeline.split_text handle cs co self e with
  | (inl _, self', _) => self' = self
  | (inr chunks, self', _) =>
      RAGPipeline.documents self <> None /\
      self' = RAGPipeline.set_text_chunks (Some chunks) self
  end.
Proof.
  unfold RAGPipeline.split_text. unfold_monad.
  destruct (RAGPipeline.documents self); cbn; [|reflexivity].
  next_call handle; [reflexivity|].
  next_call handle; [reflexivity|]. split; [discriminate|reflexivity].
Qed.

Lemma create_vectorstore_cases self (e : Ext World) :
  match RAGPipeline.create_vectorstore handle self e with
  | (inl _, self', _) => self' = self
  | (inr store, self', _) =>
      RAGPipeline.text_chunks self <> None /\
      store = Scripts.store_of (RAGPipeline.persist_directory self) /\
      self' = RAGPipeline.set_vectorstore (Some store) self
  end.
Proof.
  unfold RAGPipeline.create_vectorstore. unfold_monad.
  destruct (RAGPipeline.text_chunks self); cbn; [|reflexivity].
  next_call handle; [reflexivity|].
  next_call handle; [reflexivity|].
  split; [discriminate|]. split; reflexivity.
Qed.

Lemma setup_qa_chain_cases m self (e : Ext World) :
  match RAGPipeline.setup_qa_chain handle m self e with
  | (inl _, self', _) => self' = self
  | (inr chain, self', _) =>
      exists store,
        RAGPipeline.vectorstore self = Some store /\
        chain = mkRetrievalQA (mkLLM ChatOpenAI m 0) "stuff"
                              (mkRetriever store 3) true /\
        self' = RAGPipeline.set_qa_chain (Some chain) self
  end.
Proof.
  unfold RAGPipeline.setup_qa_chain. unfold_monad.
  destruct (RAGPipeline.vectorstore self) as [store|]; cbn; [|reflexivity].
  next_call handle; [reflexivity|].
  next_call handle; [reflexivity|].
  next_call handle; [reflexivity|]. eauto.
Qed.

Lemma after_same_paths o self (e : Ext World) :
  Scripts.same_paths self (fst (RAGPipeline.after handle o self e)).
Proof.
  assert (Hload : forall s (e0 : Ext World), Scripts.same_paths self s ->
            Scripts.same_paths self
              (snd (fst (RAGPipeline.load_pdf handle s e0)))).
  { intros s e0 Hs.
    destruct (load_pdf_self handle s e0) as [-> | [? ->]]; exact Hs. }
  assert (Hsplit : forall cs co s (e0 : Ext World), Scripts.same_paths self s ->
            Scripts.same_paths self
              (snd (fst (RAGPipeline.split_text handle cs co s e0)))).
  { intros cs co s e0 Hs.
    destruct (split_text_self handle cs co s e0) as [-> | [_ [? ->]]];
      exact Hs. }
  assert (Hcreate : forall s (e0 : Ext World), Scripts.same_paths self s ->
            Scripts.same_paths self
              (snd (fst (RAGPipeline.create_vectorstore handle s e0)))).
  { intros s e0 Hs.
    destruct (create_vectorstore_self handle s e0) as [-> | [_ [? ->]]];
      exact Hs. }
  assert (Hsetup : forall m s (e0 : Ext World), Scripts.same_paths self s ->
            Scripts.same_paths self
              (snd (fst (RAGPipeline.setup_qa_chain handle m s e0)))).
  { intros m s e0 Hs.
    destruct (setup_qa_chain_self handle m s e0)
      as [-> | [_ [? [_ ->]]]]; exact Hs. }
  assert (Hself : Scripts.same_paths self self) by (split; reflexivity).
  rewrite after_self. destruct o as [|cs co| |m|cs co|q]; auto.
  - unfold RAGPipeline.initialize.
    apply bind_keeps; [auto|]; intros _ s1 e1 H1.
    apply bind_keeps; [auto|]; intros _ s2 e2 H2.
    apply bind_keeps; [auto|]; intros _ s3 e3 H3.
    apply bind_keeps; [auto|]; intros _ s4 e4 H4.
    exact H4.
  - now rewrite query_self.
Qed.

(** X1. A method call leaves [pdf_path] and [persist_directory] alone and
    assigns no attribute other than its own: [load_pdf] only [documents],
    [split_text] only [text_chunks], [create_vectorstore] only
    [vectorstore], [setup_qa_chain] only [qa_chain], [query] none.  So a
    pipeline that reloads its PDF keeps the chunks, the store and the
    chain of the earlier ingestion until those steps are run again. *)
Theorem methods_assign_only_their_attribute
        (o : RAGPipeline.Op) (self : RAGPipeline.t) (e : Ext World) :
  let self' := fst (RAGPipeline.after handle o self e) in
  RAGPipeline.pdf_path self' = RAGPipeline.pdf_path self /\
  RAGPipeline.persist_directory self' = RAGPipeline.persist_directory self /\
  (RAGPipeline.sets_documents o = false ->
   RAGPipeline.documents self' = RAGPipeline.documents self) /\
  (RAGPipeline.sets_text_chunks o = false ->
   RAGPipeline.text_chunks self' = RAGPipeline.text_chunks self) /\
  (RAGPipeline.sets_vectorstore o = false ->
   RAGPipeline.vectorstore self' = RAGPipeline.vectorstore self) /\
  (RAGPipeline.sets_qa_chain o = false ->
   RAGPipeline.qa_chain self' = RAGPipeline.qa_chain self).
Proof.
  cbv zeta. destruct (after_same_paths o self e) as [Hp Hd].
  split; [exact Hp|]. split; [exact Hd|].
  split; [apply documents_untouched|].
  split; [apply text_chunks_untouched|].
  split; [apply vectorstore_untouched | apply qa_chain_untouched].
Qed.

(** X2. [initialize] can be called on an instance in any stage: when the
    nine library calls it makes answer without raising, it returns, all
    four attributes are replaced by what this run produced (the loader's
    pages, the splitter's chunks of them for the given sizes, the store of
    the instance's persist directory, a chain on the default model), and
    the calls were made in this order. *)
Theorem initialize_runs_all_four_steps
        (chunk_size chunk_overlap : Z) (self : RAGPipeline.t)
        (e : Ext World) docs chunks w1 w2 w3 w4 w5 w6 w7 w8 w9 :
  let path := RAGPipeline.pdf_path self in
  let dir := RAGPipeline.persist_directory self in
  let ts := mkTextSplitter chunk_size chunk_overlap (Some py_len) None in
  let store := mkChroma OpenAIEmbeddings dir in
  let llm := mkLLM ChatOpenAI RAGPipeline.default_model_name 0 in
  let chain := mkRetrievalQA llm "stuff" (mkRetriever store 3) true in
  handle _ (PyPDFLoader_new path) (world e) = (inr tt, w1) ->
  handle _ (PyPDFLoader_load path) w1 = (inr docs, w2) ->
  handle _ (TextSplitter_new ts) w2 = (inr tt, w3) ->
  handle _ (TextSplitter_split_documents ts docs) w3 = (inr chunks, w4) ->
  handle _ (Embeddings_new OpenAIEmbeddings) w4 = (inr tt, w5) ->
  handle _ (Chroma_from_documents chunks OpenAIEmbeddings dir) w5 =
  (inr tt, w6) ->
  handle _ (LLM_new llm) w6 = (inr tt, w7) ->
  handle _ (Chroma_as_retriever store 3) w7 = (inr tt, w8) ->
  handle _ (RetrievalQA_from_chain_type chain) w8 = (inr tt, w9) ->
  RAGPipeline.initialize handle chunk_size chunk_overlap self e =
  (inr tt,
   RAGPipeline.mk path dir (Some docs) (Some chunks) (Some store)
                  (Some chain),
   mkExt w9
     (trace e ++
      [Ev (PyPDFLoader_new path); Ev (PyPDFLoader_load path);
       Ev (TextSplitter_new ts);
       Ev (TextSplitter_split_documents ts docs);
       Ev (Embeddings_new OpenAIEmbeddings);
       Ev (Chroma_from_documents chunks OpenAIEmbeddings dir);
       Ev (LLM_new llm); Ev (Chroma_as_retriever store 3);
       Ev (RetrievalQA_from_chain_type chain)])).
Proof.
  intros path dir ts store llm chain H1 H2 H3 H4 H5 H6 H7 H8 H9.
  unfold RAGPipeline.initialize, RAGPipeline.load_pdf,
    RAGPipeline.split_text, RAGPipeline.create_vectorstore,
    RAGPipeline.setup_qa_chain.
  unfold_monad. fold path. rewrite H1. cbn. rewrite H2. cbn.
  fold ts. rewrite H3. cbn. rewrite H4. cbn. rewrite H5. cbn.
  fold dir. rewrite H6. cbn. fold llm. rewrite H7. cbn.
  fold store. rewrite H8. cbn. fold chain. rewrite H9. cbn.
  repeat rewrite <- app_assoc. reflexivity.
Qed.

Lemma initialize_cases cs co self (e : Ext World) :
  match RAGPipeline.initialize handle cs co self e with
  | (inl _, self', _) =>
      RAGPipeline.qa_chain self' = RAGPipeline.qa_chain self
  | (inr _, self', _) =>
      RAGPipeline.qa_chain self' =
      Some (Scripts.default_chain (RAGPipeline.persist_directory self)) /\
      RAGPipeline.vectorstore self' =
      Some (Scripts.store_of (RAGPipeline.persist_directory self)) /\
      RAGPipeline.text_chunks self' <> None /\
      RAGPipeline.documents self' <> None
  end.
Proof.
  unfold RAGPipeline.initialize, bind.
  pose proof (load_pdf_cases self e) as H1.
  destruct (RAGPipeline.load_pdf handle self e) as [[[x1|docs] s1] e1];
    [now subst s1|].
  pose proof (split_text_cases cs co s1 e1) as H2.
  destruct (RAGPipeline.split_text handle cs co s1 e1)
    as [[[x2|chunks] s2] e2]; [subst; reflexivity|].
  destruct H2 as [_ H2].
  pose proof (create_vectorstore_cases s2 e2) as H3.
  destruct (RAGPipeline.create_vectorstore handle s2 e2)
    as [[[x3|store] s3] e3]; [subst; reflexivity|].
  destruct H3 as (_ & Hstore & H3).
  pose proof (setup_qa_chain_cases RAGPipeline.default_model_name s3 e3)
    as H4.
  destruct (RAGPipeline.setup_qa_chain handle _ s3 e3)
    as [[[x4|chain] s4] e4]; [subst; reflexivity|].
  destruct H4 as (store' & Hv & Hchain & H4).
  subst s1 s2 s3 s4. cbn in *. inversion Hv. subst.
  repeat split; discriminate.
Qed.

(** X3. A call of [initialize] that raises, at whichever of its steps,
    leaves [qa_chain] as it was: a pipeline that could answer still can,
    with the chain it had, and one that could not still cannot.  A call
    that returns leaves the pipeline in the [Ready] stage with all four
    attributes set, its store and chain being those of its own persist
    directory and the default model. *)
Theorem initialize_outcome
        (chunk_size chunk_overlap : Z) (self : RAGPipeline.t)
        (e : Ext World) :
  match RAGPipeline.initialize handle chunk_size chunk_overlap self e with
  | (inl _, self', _) =>
      RAGPipeline.qa_chain self' = RAGPipeline.qa_chain self /\
      (RAGPipeline.lifecycle self' = RAGPipeline.Ready <->
       RAGPipeline.lifecycle self = RAGPipeline.Ready)
  | (inr _, self', _) =>
      RAGPipeline.lifecycle self' = RAGPipeline.Ready /\
      RAGPipeline.qa_chain self' =
      Some (Scripts.default_chain (RAGPipeline.persist_directory self)) /\
      RAGPipeline.vectorstore self' =
      Some (Scripts.store_of (RAGPipeline.persist_directory self)) /\
      RAGPipeline.text_chunks self' <> None /\
      RAGPipeline.documents self' <> None
  end.
Proof.
  pose proof (initialize_cases chunk_size chunk_overlap self e) as H.
  destruct (RAGPipeline.initialize handle chunk_size chunk_overlap self e)
    as [[[x|[]] self'] e'].
  - split; [exact H|]. rewrite !ready_iff. now rewrite H.
  - destruct H as (Hq & Hrest). split; [|now split].
    apply ready_iff. now rewrite Hq.
Qed.

(** X4. On an instance with no documents, chunks or store yet, calling
    the four steps one after the other, going on to the next call even
    when one has raised, leaves the instance and the outside world exactly
    as one call of [initialize] does: after a failed step the guards of
    the later ones raise before any library call. *)
Theorem steps_equal_initialize_on_new_instance
        (chunk_size chunk_overlap : Z) (self : RAGPipeline.t)
        (e : Ext World) :
  RAGPipeline.documents self = None ->
  RAGPipeline.text_chunks self = None ->
  RAGPipeline.vectorstore self = None ->
  RAGPipeline.after_all handle
    [RAGPipeline.call_load_pdf;
     RAGPipeline.call_split_text chunk_size chunk_overlap;
     RAGPipeline.call_create_vectorstore;
     RAGPipeline.call_setup_qa_chain RAGPipeline.default_model_name]
    self e =
  RAGPipeline.after handle
    (RAGPipeline.call_initialize chunk_size chunk_overlap) self e.
Proof.
  intros Hd Hc Hv.
  unfold RAGPipeline.after_all, RAGPipeline.after, RAGPipeline.initialize,
    bind.
  pose proof (load_pdf_cases self e) as H1.
  destruct (RAGPipeline.load_pdf handle self e) as [[[x1|docs] s1] e1].
  - subst s1.
    rewrite (split_text_guard handle _ _ self e1 Hd).
    rewrite (create_vectorstore_guard handle self e1 Hc).
    rewrite (setup_qa_chain_guard handle _ self e1 Hv). reflexivity.
  - pose proof (split_text_cases chunk_size chunk_overlap s1 e1) as H2.
    destruct (RAGPipeline.split_text handle _ _ s1 e1)
      as [[[x2|chunks] s2] e2].
    + subst s2 s1.
      rewrite (create_vectorstore_guard handle _ e2) by exact Hc.
      rewrite (setup_qa_chain_guard handle _ _ e2) by exact Hv.
      reflexivity.
    + destruct H2 as [_ H2].
      pose proof (create_vectorstore_cases s2 e2) as H3.
      destruct (RAGPipeline.create_vectorstore handle s2 e2)
        as [[[x3|store] s3] e3].
      * subst s3 s2 s1.
        rewrite (setup_qa_chain_guard handle _ _ e3) by exact Hv.
        reflexivity.
      * destruct (RAGPipeline.setup_qa_chain handle _ s3 e3)
          as [[[x4|chain] s4] e4]; reflexivity.
Qed.

(** *** The store and the chain belong to the instance's directory *)

Lemma own_directory_paths self self' :
  Scripts.own_directory self ->
  RAGPipeline.persist_directory self' = RAGPipeline.persist_directory self ->
  RAGPipeline.vectorstore self' = RAGPipeline.vectorstore self ->
  RAGPipeline.qa_chain self' = RAGPipeline.qa_chain self ->
  Scripts.own_directory self'.
Proof.
  intros [Hv Hq] Hd Hv' Hq'. unfold Scripts.own_directory.
  rewrite Hd, Hv', Hq'. now split.
Qed.

Lemma load_pdf_keeps_own self (e : Ext World) :
  Scripts.own_directory self ->
  Scripts.own_directory (snd (fst (RAGPipeline.load_pdf handle self e))).
Proof.
  intros Hown. destruct (load_pdf_self handle self e) as [-> | [? ->]];
    [assumption|]. now apply (own_directory_paths self).
Qed.

Lemma split_text_keeps_own cs co self (e : Ext World) :
  Scripts.own_directory self ->
  Scripts.own_directory
    (snd (fst (RAGPipeline.split_text handle cs co self e))).
Proof.
  intros Hown.
  destruct (split_text_self handle cs co self e) as [-> | [_ [? ->]]];
    [assumption|]. now apply (own_directory_paths self).
Qed.

Lemma create_vectorstore_keeps_own self (e : Ext World) :
  Scripts.own_directory self ->
  Scripts.own_directory
    (snd (fst (RAGPipeline.create_vectorstore handle self e))).
Proof.
  intros Hown. pose proof (create_vectorstore_cases self e) as H.
  destruct (RAGPipeline.create_vectorstore handle self e)
    as [[[x|store] s'] e']; cbn.
  - now subst s'.
  - destruct H as (_ & -> & ->). destruct Hown as [_ Hq].
    split; cbn.
    + now intros store [= <-].
    + exact Hq.
Qed.

Lemma setup_qa_chain_keeps_own m self (e : Ext World) :
  Scripts.own_directory self ->
  Scripts.own_directory
    (snd (fst (RAGPipeline.setup_qa_chain handle m self e))).
Proof.
  intros Hown. pose proof (setup_qa_chain_cases m self e) as H.
  destruct (RAGPipeline.setup_qa_chain handle m self e)
    as [[[x|chain] s'] e']; cbn.
  - now subst s'.
  - destruct H as (store & Hstore & -> & ->). destruct Hown as [Hv _].
    split; cbn.
    + exact Hv.
    + intros chain [= <-]. exists m. now rewrite (Hv store Hstore).
Qed.

Lemma after_keeps_own o self (e : Ext World) :
  Scripts.own_directory self ->
  Scripts.own_directory (fst (RAGPipeline.after handle o self e)).
Proof.
  intros Hown. rewrite after_self. destruct o as [|cs co| |m|cs co|q].
  - now apply load_pdf_keeps_own.
  - now apply split_text_keeps_own.
  - now apply create_vectorstore_keeps_own.
  - now apply setup_qa_chain_keeps_own.
  - unfold RAGPipeline.initialize.
    apply bind_keeps; [now apply load_pdf_keeps_own|]; intros _ s1 e1 H1.
    apply bind_keeps; [now apply split_text_keeps_own|];
      intros _ s2 e2 H2.
    apply bind_keeps; [now apply create_vectorstore_keeps_own|];
      intros _ s3 e3 H3.
    apply bind_keeps; [now apply setup_qa_chain_keeps_own|];
      intros _ s4 e4 H4.
    exact H4.
  - now rewrite query_self.
Qed.

(** What [query] does once the chain is set, whatever the chain answers. *)
Lemma query_run q self (e : Ext World) chain :
  RAGPipeline.qa_chain self = Some chain ->
  RAGPipeline.query handle q self e =
  (fst (handle _ (RetrievalQA_invoke chain q) (world e)), self,
   mkExt (snd (handle _ (RetrievalQA_invoke chain q) (world e)))
         (trace e ++ [Ev (RetrievalQA_invoke chain q)])).
Proof.
  intros Hq. unfold RAGPipeline.query. unfold_monad. rewrite Hq. cbn.
  destruct (handle _ (RetrievalQA_invoke chain q) (world e)) as [[x|r] w];
    reflexivity.
Qed.

(** X5. In every instance a program can hold, the store is the one of
    the instance's own [persist_directory] with OpenAI embeddings, and the
    chain is a "stuff" chain over that store with k = 3, temperature 0 and
    [return_source_documents] on.  So a [query] either raises at its guard
    without any call, or makes exactly one call: the chain of the
    instance's own directory, invoked with the question as given. *)
Theorem reachable_pipeline_queries_own_directory
        (self : RAGPipeline.t) :
  RAGPipeline.Reachable handle self ->
  Scripts.own_directory self /\
  forall question (e : Ext World),
    (RAGPipeline.qa_chain self = None /\
     snd (RAGPipeline.query handle question self e) = e) \/
    (exists model_name,
        trace (snd (RAGPipeline.query handle question self e)) =
        (trace e ++
         [Ev (RetrievalQA_invoke
                (Scripts.chain_of (RAGPipeline.persist_directory self)
                                  model_name)
                question)])%list).
Proof.
  intros Hr.
  assert (Hown : Scripts.own_directory self).
  { induction Hr as [pdf dir e0 self e1 Hinit | o self e0 Hr IH].
    - apply init_result in Hinit. subst self. split; cbn; discriminate.
    - now apply after_keeps_own. }
  split; [exact Hown|]. intros q e.
  destruct (RAGPipeline.qa_chain self) as [chain|] eqn:Hq.
  - right. destruct Hown as [_ Hchain].
    destruct (Hchain chain Hq) as [m ->]. exists m.
    now rewrite (query_run q self e _ Hq).
  - left. split; [reflexivity|].
    now rewrite (query_guard handle q self e Hq).
Qed.
End Steps.

(** ** Sistema-RAG/rag.py *)

(** X7. The text of every retrieved document appears, unchanged, in the
    context block and therefore in the prompt, between the fixed opening
    and the question part. *)
Theorem context_contains_every_chunk
        (d : Document) (docs : list Document) :
  In d docs ->
  exists before after,
    SimpleRAGPipeline.context docs = before ++ page_content d ++ after /\
    forall question,
      SimpleRAGPipeline.prompt (SimpleRAGPipeline.context docs) question =
      (SimpleRAGPipeline.before_context ++ before) ++ page_content d ++
      (after ++ SimpleRAGPipeline.after_context question).
Proof.
  intros Hin.
  assert (Hctx : exists before after,
             SimpleRAGPipeline.context docs =
             before ++ page_content d ++ after).
  { induction docs as [|d0 docs IH]; [contradiction|].
    destruct docs as [|d1 docs].
    - destruct Hin as [-> | []]. exists "", "". cbn.
      clear IH. induction (page_content d) as [|c s IHs]; cbn;
        [reflexivity | now rewrite <- IHs].
    - change (SimpleRAGPipeline.context (d0 :: d1 :: docs))
        with (page_content d0 ++ (nl ++ nl) ++
              SimpleRAGPipeline.context (d1 :: docs)).
      destruct Hin as [-> | Hin].
      + exists "". eexists. reflexivity.
      + destruct (IH Hin) as (before & after & ->).
        exists (page_content d0 ++ (nl ++ nl) ++ before), after.
        now rewrite !string_app_assoc. }
  destruct Hctx as (before & after & Hctx).
  exists before, after. split; [exact Hctx|].
  intros question. rewrite prompt_shape, Hctx.
  now rewrite !string_app_assoc.
Qed.

Section SimpleOutcomes.
Context {World : Type} (handle : Handler World).

(** X6. [SimpleRAGPipeline.query] never changes the pipeline.  When the
    retriever raises, the exception leaves [query] and the model is not
    called; when the model raises, its exception leaves [query] and no
    partial result is returned. *)
Theorem simple_query_failures
        (question : string) (self : SimpleRAGPipeline.t) (e : Ext World) :
  let retrieve :=
    Retriever_invoke (SimpleRAGPipeline.retriever self) question in
  snd (fst (SimpleRAGPipeline.query handle question self e)) = self /\
  (forall x w1,
      handle _ retrieve (world e) = (inl x, w1) ->
      SimpleRAGPipeline.query handle question self e =
      (inl x, self, mkExt w1 (trace e ++ [Ev retrieve]))) /\
  (forall docs w1 x w2,
      handle _ retrieve (world e) = (inr docs, w1) ->
      let generate :=
        LLM_invoke (SimpleRAGPipeline.llm self)
          (SimpleRAGPipeline.prompt (SimpleRAGPipeline.context docs)
                                    question) in
      handle _ generate w1 = (inl x, w2) ->
      SimpleRAGPipeline.query handle question self e =
      (inl x, self, mkExt w2 (trace e ++ [Ev retrieve; Ev generate]))).
Proof.
  intros retrieve. split; [|split].
  - unfold SimpleRAGPipeline.query. unfold_monad.
    next_call handle; [reflexivity|].
    next_call handle; reflexivity.
  - intros x w1 H. unfold SimpleRAGPipeline.query. unfold_monad.
    fold retrieve. rewrite H. reflexivity.
  - intros docs w1 x w2 H generate Hg.
    unfold SimpleRAGPipeline.query. unfold_monad.
    fold retrieve. rewrite H. cbn. fold generate. rewrite Hg. cbn.
    now rewrite <- app_assoc.
Qed.

(** X8. The constructor of [SimpleRAGPipeline] returns a pipeline exactly
    when its eight library calls, made in this order, all answer without
    raising: it has then loaded the PDF, split the pages with sizes 1000
    and 100 and the four separators, handed exactly the chunks the
    splitter returned to [Chroma.from_documents] with the multilingual
    MiniLM embeddings and the given [db_path], and the pipeline it returns
    is the one over that store.  There is no pipeline without a complete
    ingestion. *)
Theorem simple_init_ingests
        (pdf_path db_path : string) (e : Ext World)
        (self : SimpleRAGPipeline.t) (e' : Ext World) :
  let ts := mkTextSplitter 1000 100 None (Some [nl ++ nl; nl; " "; ""]) in
  let embeddings :=
    HuggingFaceEmbeddings SimpleRAGPipeline.embedding_model_name in
  let store := mkChroma embeddings db_path in
  let llm := mkLLM Ollama "llama3.2" 0 in
  SimpleRAGPipeline.init handle pdf_path db_path tt e = (inr self, tt, e')
  <->
  exists docs chunks w1 w2 w3 w4 w5 w6 w7 w8,
    handle _ (PyPDFLoader_new pdf_path) (world e) = (inr tt, w1) /\
    handle _ (PyPDFLoader_load pdf_path) w1 = (inr docs, w2) /\
    handle _ (TextSplitter_new ts) w2 = (inr tt, w3) /\
    handle _ (TextSplitter_split_documents ts docs) w3 = (inr chunks, w4) /\
    handle _ (Embeddings_new embeddings) w4 = (inr tt, w5) /\
    handle _ (Chroma_from_documents chunks embeddings db_path) w5 =
    (inr tt, w6) /\
    handle _ (LLM_new llm) w6 = (inr tt, w7) /\
    handle _ (Chroma_as_retriever store 3) w7 = (inr tt, w8) /\
    self = SimpleRAGPipeline.mk store llm (mkRetriever store 3) /\
    e' =
    mkExt w8
      (trace e ++
       [Ev (PyPDFLoader_new pdf_path); Ev (PyPDFLoader_load pdf_path);
        Ev (TextSplitter_new ts);
        Ev (TextSplitter_split_documents ts docs);
        Ev (Embeddings_new embeddings);
        Ev (Chroma_from_documents chunks embeddings db_path);
        Ev (LLM_new llm); Ev (Chroma_as_retriever store 3)]).
Proof.
  intros ts embeddings store llm. split.
  - unfold SimpleRAGPipeline.init. unfold_monad.
    fold ts embeddings llm store.
    destruct (handle _ (PyPDFLoader_new pdf_path) (world e))
      as [[x|[]] w1] eqn:H1; cbn; [discriminate|].
    destruct (handle _ (PyPDFLoader_load pdf_path) w1)
      as [[x|docs] w2] eqn:H2; cbn; [discriminate|].
    destruct (handle _ (TextSplitter_new ts) w2)
      as [[x|[]] w3] eqn:H3; cbn; [discriminate|].
    destruct (handle _ (TextSplitter_split_documents ts docs) w3)
      as [[x|chunks] w4] eqn:H4; cbn; [discriminate|].
    destruct (handle _ (Embeddings_new embeddings) w4)
      as [[x|[]] w5] eqn:H5; cbn; [discriminate|].
    destruct (handle _ (Chroma_from_documents chunks embeddings db_path) w5)
      as [[x|[]] w6] eqn:H6; cbn; [discriminate|].
    destruct (handle _ (LLM_new llm) w6)
      as [[x|[]] w7] eqn:H7; cbn; [discriminate|].
    destruct (handle _ (Chroma_as_retriever store 3) w7)
      as [[x|[]] w8] eqn:H8; cbn; [discriminate|].
    intros H. inversion H. subst self.
    exists docs, chunks, w1, w2, w3, w4, w5, w6, w7, w8.
    repeat (split; [first [assumption | reflexivity]|]).
    repeat rewrite <- app_assoc. reflexivity.
  - intros (docs & chunks & w1 & w2 & w3 & w4 & w5 & w6 & w7 & w8 &
            H1 & H2 & H3 & H4 & H5 & H6 & H7 & H8 & -> & ->).
    unfold SimpleRAGPipeline.init. unfold_monad.
    rewrite H1. cbn. rewrite H2. cbn. fold ts. rewrite H3. cbn.
    rewrite H4. cbn. fold embeddings. rewrite H5. cbn. rewrite H6. cbn.
    fold llm. rewrite H7. cbn. fold store. rewrite H8. cbn.
    repeat rewrite <- app_assoc. reflexivity.
Qed.
End SimpleOutcomes.

(** ** The scripts *)

Section Console.
Context {World : Type} (handle : Handler World).
Context (path_exists : World -> string -> bool).
Context (strip lower : string -> string).

Local Abbreviation main_loop := (Scripts.main_loop handle strip lower).
Local Abbreviation ejemplo_loop := (Scripts.ejemplo_loop handle strip lower).
Local Abbreviation is_exit := (Scripts.is_exit strip lower).
Local Abbreviation before_exit := (Scripts.before_exit strip lower).
Local Abbreviation after_exit := (Scripts.after_exit strip lower).
Local Abbreviation has_exit := (Scripts.has_exit strip lower).
Local Abbreviation questions := (Scripts.questions strip).

Lemma questions_cons_asked line lines :
  Scripts.nonempty (strip line) = true ->
  questions (line :: lines) = strip line :: questions lines.
Proof. intros H. unfold Scripts.questions. cbn. now rewrite H. Qed.

Lemma questions_cons_blank line lines :
  Scripts.nonempty (strip line) = false ->
  questions (line :: lines) = questions lines.
Proof. intros H. unfold Scripts.questions. cbn. now rewrite H. Qed.

Lemma asks_app chain qs qs' :
  Scripts.asks chain (qs ++ qs') =
  (Scripts.asks chain qs ++ Scripts.asks chain qs')%list.
Proof. apply map_app. Qed.

(** A run of questions put to a pipeline whose chain is set: the instance
    stays as it is, and when all were answered each was asked once, in
    order. *)
Lemma for_each_query self chain qs :
  RAGPipeline.qa_chain self = Some chain ->
  forall e : Ext World,
    match Scripts.for_each qs
            (fun q => RAGPipeline.query handle q ;;; ret tt) self e with
    | (inl _, self', _) => self' = self
    | (inr _, self', e') =>
        self' = self /\
        trace e' = (trace e ++ Scripts.asks chain qs)%list
    end.
Proof.
  intros Hq. induction qs as [|q qs IH]; intros e.
  - cbn. split; [reflexivity | now rewrite app_nil_r].
  - cbn [Scripts.for_each]. unfold bind at 1. unfold bind at 1.
    rewrite (query_run handle q self e chain Hq).
    destruct (handle _ (RetrievalQA_invoke chain q) (world e))
      as [[x|r] w1]; cbn [fst snd]; [reflexivity|].
    cbn [ret].
    specialize (IH (mkExt w1 (trace e ++ [Ev (RetrievalQA_invoke chain q)]))).
    destruct (Scripts.for_each qs _ self _) as [[[x|[]] s'] e'];
      [exact IH|].
    destruct IH as [-> ->]. split; [reflexivity|].
    cbn. now rewrite <- app_assoc.
Qed.

(** The loop of [main]: the instance stays as it is; when the loop ends
    normally an exit word was read, nothing after it was, and every
    question before it was asked once, in order; when it raises, the
    questions asked are the first ones of the session. *)
Lemma main_loop_cases self chain lines :
  RAGPipeline.qa_chain self = Some chain ->
  forall e : Ext World,
    match main_loop lines self e with
    | (inr rest, self', e') =>
        self' = self /\
        has_exit Scripts.main_exit_words lines = true /\
        rest = after_exit Scripts.main_exit_words lines /\
        trace e' =
        (trace e ++
         Scripts.asks chain
           (questions (before_exit Scripts.main_exit_words lines)))%list
    | (inl _, self', e') =>
        self' = self /\
        exists asked more,
          questions (before_exit Scripts.main_exit_words lines) =
          (asked ++ more)%list /\
          trace e' = (trace e ++ Scripts.asks chain asked)%list
    end.
Proof.
  intros Hq. induction lines as [|line rest IH]; intros e.
  - cbn. split; [reflexivity|]. exists [], []. split; [reflexivity|].
    now rewrite app_nil_r.
  - cbn [Scripts.main_loop Scripts.before_exit Scripts.after_exit
         Scripts.has_exit existsb].
    fold (is_exit Scripts.main_exit_words line).
    destruct (is_exit Scripts.main_exit_words line) eqn:Hexit.
    + cbn. repeat split. now rewrite app_nil_r.
    + cbn [orb].
      destruct (Scripts.nonempty (strip line)) eqn:Hne.
      * unfold bind at 1.
        rewrite (query_run handle (strip line) self e chain Hq).
        rewrite (questions_cons_asked _ _ Hne).
        destruct (handle _ (RetrievalQA_invoke chain (strip line))
                         (world e)) as [[x|r] w1]; cbn [fst snd].
        -- split; [reflexivity|].
           exists [strip line],
             (questions (before_exit Scripts.main_exit_words rest)).
           split; reflexivity.
        -- specialize (IH (mkExt w1 (trace e ++
                             [Ev (RetrievalQA_invoke chain (strip line))]))).
           destruct (main_loop rest self _) as [[[x|rest'] s'] e'].
           ++ destruct IH as (-> & asked & more & Hsplit & Htrace).
              split; [reflexivity|].
              exists (strip line :: asked), more. rewrite Hsplit.
              split; [reflexivity|]. rewrite Htrace. cbn.
              now rewrite <- app_assoc.
           ++ destruct IH as (-> & Hhas & -> & Htrace).
              repeat split; [exact Hhas|]. rewrite Htrace. cbn.
              now rewrite <- app_assoc.
      * rewrite (questions_cons_blank _ _ Hne). apply IH.
Qed.


(** X10. When documento.pdf exists and [main] returns normally, the input
    held an exit word ("salir", "exit" or "quit" once stripped and
    lowered), the lines after it are left unread, and the last calls made
    are, once each and in order, the two example questions followed by the
    stripped non-empty lines before the exit word, all put to the chain of
    ./chroma_db on the default model. *)
Theorem main_session
        (stdin rest : list string) (e e' : Ext World) :
  path_exists (world e) "documento.pdf" = true ->
  Scripts.main handle path_exists strip lower stdin tt e =
  (inr rest, tt, e') ->
  has_exit Scripts.main_exit_words stdin = true /\
  rest = after_exit Scripts.main_exit_words stdin /\
  exists earlier,
    trace e' =
    (earlier ++
     Scripts.asks
       (Scripts.default_chain RAGPipeline.default_persist_directory)
       (Scripts.example_questions ++
        questions (before_exit Scripts.main_exit_words stdin)))%list.
Proof.
  intros Hpath. unfold Scripts.main. rewrite Hpath. cbn [negb].
  unfold bind at 1.
  destruct (RAGPipeline.init handle _ _ tt e) as [[[x|rag] []] e1] eqn:Hinit;
    [discriminate|].
  apply init_result in Hinit.
  unfold Scripts.with_object, Scripts.try_except. unfold bind at 1.
  pose proof (initialize_cases handle 1000 100 rag e1) as Hinitialize.
  destruct (RAGPipeline.initialize handle 1000 100 rag e1)
    as [[[x|[]] s1] e2]; [discriminate|].
  destruct Hinitialize as (Hchain & _). rewrite Hinit in Hchain.
  cbn [RAGPipeline.persist_directory] in Hchain.
  unfold bind at 1.
  pose proof (for_each_query s1 _ Scripts.example_questions Hchain e2)
    as Hexamples.
  destruct (Scripts.for_each Scripts.example_questions _ s1 e2)
    as [[[x|[]] s2] e3]; [discriminate|].
  destruct Hexamples as [-> Hexamples].
  pose proof (main_loop_cases s1 _ stdin Hchain e3) as Hloop.
  destruct (main_loop stdin s1 e3) as [[[x|rest'] s3] e4]; [discriminate|].
  destruct Hloop as (_ & Hhas & Hrest & Htrace).
  intros H. inversion H. subst.
  split; [exact Hhas|]. split; [reflexivity|].
  exists (trace e2). rewrite Htrace, Hexamples, asks_app.
  now rewrite <- app_assoc.
Qed.

(** X13. When [ejemplo_basico] returns normally, the last calls it made
    are its three questions, once each and in order, put to the chain of
    ./chroma_db on the default model. *)
Theorem ejemplo_basico_completed (e e' : Ext World) :
  Scripts.ejemplo_basico handle tt e = (inr tt, tt, e') ->
  exists earlier,
    trace e' =
    (earlier ++
     Scripts.asks
       (Scripts.default_chain RAGPipeline.default_persist_directory)
       Scripts.preguntas)%list.
Proof.
  unfold Scripts.ejemplo_basico. unfold bind at 1.
  destruct (RAGPipeline.init handle _ _ tt e) as [[[x|rag] []] e1] eqn:Hinit;
    [discriminate|].
  apply init_result in Hinit.
  unfold Scripts.with_object. unfold bind at 1.
  pose proof (initialize_cases handle 1000 100 rag e1) as Hinitialize.
  destruct (RAGPipeline.initialize handle 1000 100 rag e1)
    as [[[x|[]] s1] e2]; [discriminate|].
  destruct Hinitialize as (Hchain & _). rewrite Hinit in Hchain.
  cbn [RAGPipeline.persist_directory] in Hchain.
  pose proof (for_each_query s1 _ Scripts.preguntas Hchain e2) as Hasked.
  destruct (Scripts.for_each Scripts.preguntas _ s1 e2)
    as [[[x|[]] s2] e3]; [discriminate|].
  destruct Hasked as [_ Hasked].
  intros H. inversion H. subst e3. exists (trace e2). exact Hasked.
Qed.

(** X12. [ejemplo_paso_a_paso], which calls the four steps one by one,
    does in every world exactly what constructing the pipeline on
    ./ejemplo_db, calling [initialize(1000, 100)] and asking the one
    question does: same outcome, same calls in the same order. *)
Theorem ejemplo_paso_a_paso_as_initialize (e : Ext World) :
  Scripts.ejemplo_paso_a_paso handle tt e =
  (rag <- RAGPipeline.init handle "documento.pdf" "./ejemplo_db" ;;
   Scripts.with_object rag
     (RAGPipeline.initialize handle 1000 100 ;;;
      RAGPipeline.query handle "¿De qué trata el documento?" ;;;
      ret tt)) tt e.
Proof.
  unfold Scripts.ejemplo_paso_a_paso, Scripts.with_object,
    RAGPipeline.initialize, bind.
  destruct (RAGPipeline.init handle _ _ tt e) as [[[x|rag] []] e1];
    [reflexivity|].
  destruct (RAGPipeline.load_pdf handle rag e1) as [[[x1|docs] s1] e2];
    [reflexivity|].
  destruct (RAGPipeline.split_text handle 1000 100 s1 e2)
    as [[[x2|chunks] s2] e3]; [reflexivity|].
  destruct (RAGPipeline.create_vectorstore handle s2 e3)
    as [[[x3|store] s3] e4]; [reflexivity|].
  change RAGPipeline.default_model_name with "gpt-4o-mini".
  destruct (RAGPipeline.setup_qa_chain handle "gpt-4o-mini" s3 e4)
    as [[[x4|chain] s4] e5]; reflexivity.
Qed.

(** X9. [main] looks for documento.pdf before anything else.  When the
    file is missing it returns normally without a library call and without
    reading a line, whether or not an API key is configured.  When the
    file exists and [OPENAI_API_KEY] is unset once [.env] is loaded, it
    raises the constructor's [ValueError], again without reading a line
    and having made no call but [load_dotenv] and [os.getenv]. *)
Theorem main_preconditions (stdin : list string) (e : Ext World) :
  (path_exists (world e) "documento.pdf" = false ->
   Scripts.main handle path_exists strip lower stdin tt e =
   (inr stdin, tt, e)) /\
  (forall w1 w2,
      path_exists (world e) "documento.pdf" = true ->
      handle _ load_dotenv (world e) = (inr tt, w1) ->
      handle _ (os_getenv "OPENAI_API_KEY") w1 = (inr None, w2) ->
      Scripts.main handle path_exists strip lower stdin tt e =
      (inl (ValueError RAGPipeline.msg_no_api_key), tt,
       mkExt w2 (trace e ++ [Ev load_dotenv;
                             Ev (os_getenv "OPENAI_API_KEY")]))).
Proof.
  split.
  - intros Hpath. unfold Scripts.main. now rewrite Hpath.
  - intros w1 w2 Hpath H1 H2. unfold Scripts.main. rewrite Hpath.
    cbn [negb]. unfold RAGPipeline.init. unfold_monad.
    rewrite H1. cbn. rewrite H2. cbn. now rewrite <- app_assoc.
Qed.

End Console.

(** ** No step is ever undone *)

Section Progress.
Context {World : Type} (handle : Handler World).

Lemma no_step_undone_refl self : Scripts.no_step_undone self self.
Proof. repeat split; auto. Qed.

Lemma no_step_undone_trans s1 s2 s3 :
  Scripts.no_step_undone s1 s2 -> Scripts.no_step_undone s2 s3 ->
  Scripts.no_step_undone s1 s3.
Proof.
  intros (A1 & A2 & A3 & A4) (B1 & B2 & B3 & B4). repeat split; auto.
Qed.

Lemma after_no_step_undone o self (e : Ext World) :
  Scripts.no_step_undone self (fst (RAGPipeline.after handle o self e)).
Proof.
  assert (Hload : forall s (e0 : Ext World),
            Scripts.no_step_undone s
              (snd (fst (RAGPipeline.load_pdf handle s e0)))).
  { intros s e0.
    destruct (load_pdf_self handle s e0) as [-> | [? ->]];
      [apply no_step_undone_refl|].
    repeat split; cbn; auto; discriminate. }
  assert (Hsplit : forall cs co s (e0 : Ext World),
            Scripts.no_step_undone s
              (snd (fst (RAGPipeline.split_text handle cs co s e0)))).
  { intros cs co s e0.
    destruct (split_text_self handle cs co s e0) as [-> | [_ [? ->]]];
      [apply no_step_undone_refl|].
    repeat split; cbn; auto; discriminate. }
  assert (Hcreate : forall s (e0 : Ext World),
            Scripts.no_step_undone s
              (snd (fst (RAGPipeline.create_vectorstore handle s e0)))).
  { intros s e0.
    destruct (create_vectorstore_self handle s e0) as [-> | [_ [? ->]]];
      [apply no_step_undone_refl|].
    repeat split; cbn; auto; discriminate. }
  assert (Hsetup : forall m s (e0 : Ext World),
            Scripts.no_step_undone s
              (snd (fst (RAGPipeline.setup_qa_chain handle m s e0)))).
  { intros m s e0.
    destruct (setup_qa_chain_self handle m s e0)
      as [-> | [_ [? [_ ->]]]]; [apply no_step_undone_refl|].
    repeat split; cbn; auto; discriminate. }
  rewrite after_self. destruct o as [|cs co| |m|cs co|q]; auto.
  - unfold RAGPipeline.initialize.
    apply bind_keeps; [auto|]; intros _ s1 e1 H1.
    apply bind_keeps;
      [eapply no_step_undone_trans; [exact H1 | auto]|];
      intros _ s2 e2 H2.
    apply bind_keeps;
      [eapply no_step_undone_trans; [exact H2 | auto]|];
      intros _ s3 e3 H3.
    apply bind_keeps;
      [eapply no_step_undone_trans; [exact H3 | auto]|];
      intros _ s4 e4 H4.
    exact H4.
  - rewrite query_self. apply no_step_undone_refl.
Qed.

(** X14. No method ever sets an attribute back to [None]: through any
    sequence of calls, whatever they raise, every attribute that was set
    stays set.  In particular a pipeline that has reached the [Ready]
    stage stays in it, and every later [query] gets past its guard and
    calls the chain. *)
Theorem attributes_once_set_stay_set
        (ops : list RAGPipeline.Op) (self : RAGPipeline.t)
        (e : Ext World) :
  let self' := fst (RAGPipeline.after_all handle ops self e) in
  Scripts.no_step_undone self self' /\
  (RAGPipeline.lifecycle self = RAGPipeline.Ready ->
   RAGPipeline.lifecycle self' = RAGPipeline.Ready /\
   forall question (e0 : Ext World),
   exists chain,
     trace (snd (RAGPipeline.query handle question self' e0)) =
     (trace e0 ++ [Ev (RetrievalQA_invoke chain question)])%list).
Proof.
  cbv zeta.
  assert (Hkept : Scripts.no_step_undone self
                    (fst (RAGPipeline.after_all handle ops self e))).
  { revert self e. induction ops as [|o ops IH]; intros self e.
    - apply no_step_undone_refl.
    - cbn. pose proof (after_no_step_undone o self e) as Ho.
      destruct (RAGPipeline.after handle o self e) as [s1 e1].
      eapply no_step_undone_trans; [exact Ho | apply IH]. }
  split; [exact Hkept|]. intros Hready.
  apply ready_iff in Hready. destruct Hkept as (_ & _ & _ & Hq).
  specialize (Hq Hready). split; [now apply ready_iff|].
  intros q e0.
  destruct (RAGPipeline.qa_chain
              (fst (RAGPipeline.after_all handle ops self e)))
    as [chain|] eqn:Hchain; [|contradiction].
  exists chain. now rewrite (query_run handle q _ e0 chain Hchain).
Qed.
End Progress.

(** ** Runs of the further properties in the small outside world *)

Lemma methods_assign_only_their_attribute_witness :
  RAGPipeline.qa_chain
    (fst (RAGPipeline.after Reference.handle RAGPipeline.call_load_pdf
            (fst Reference.ingested) (snd Reference.ingested))) =
  RAGPipeline.qa_chain (fst Reference.ingested).
Proof.
  apply (proj2 (proj2 (proj2 (proj2 (proj2
           (methods_assign_only_their_attribute Reference.handle
              RAGPipeline.call_load_pdf (fst Reference.ingested)
              (snd Reference.ingested))))))).
  reflexivity.
Defined.

Lemma initialize_runs_all_four_steps_witness :
  exists self' e',
    RAGPipeline.initialize Reference.handle 10 0 Reference.fresh
      Reference.constructed = (inr tt, self', e') /\
    RAGPipeline.text_chunks self' =
    Some [mkDocument "hello" (metadata Reference.page);
          mkDocument "world" (metadata Reference.page)].
Proof.
  do 2 eexists. split.
  - eapply (initialize_runs_all_four_steps Reference.handle 10 0
              Reference.fresh Reference.constructed); reflexivity.
  - reflexivity.
Defined.

Lemma steps_equal_initialize_on_new_instance_witness :
  RAGPipeline.after_all Reference.handle
    [RAGPipeline.call_load_pdf; RAGPipeline.call_split_text 10 0;
     RAGPipeline.call_create_vectorstore;
     RAGPipeline.call_setup_qa_chain RAGPipeline.default_model_name]
    Reference.fresh Reference.constructed =
  RAGPipeline.after Reference.handle (RAGPipeline.call_initialize 10 0)
    Reference.fresh Reference.constructed.
Proof.
  apply (steps_equal_initialize_on_new_instance Reference.handle 10 0
           Reference.fresh Reference.constructed); reflexivity.
Defined.

Lemma reachable_pipeline_queries_own_directory_witness :
  Scripts.own_directory
    (fst (RAGPipeline.after Reference.handle
            (RAGPipeline.call_initialize 10 0)
            Reference.fresh Reference.constructed)).
Proof.
  apply (proj1 (reachable_pipeline_queries_own_directory Reference.handle
                  _ (RAGPipeline.reach_call Reference.handle
                       (RAGPipeline.call_initialize 10 0)
                       Reference.fresh Reference.constructed
                       (RAGPipeline.reach_init Reference.handle
                          "documento.pdf" "./db"
                          (Reference.start Reference.world0)
                          Reference.fresh Reference.constructed
                          eq_refl)))).
Defined.

Lemma simple_query_failures_witness :
  SimpleRAGPipeline.query Scripts.offline "q" Reference.simple_pipeline
    Reference.simple_ext =
  (inl Scripts.unreachable, Reference.simple_pipeline,
   mkExt (world Reference.simple_ext)
     (trace Reference.simple_ext ++
      [Ev (Retriever_invoke
             (SimpleRAGPipeline.retriever Reference.simple_pipeline)
             "q")])).
Proof.
  apply (proj1 (proj2 (simple_query_failures Scripts.offline "q"
                         Reference.simple_pipeline Reference.simple_ext))).
  reflexivity.
Defined.

Lemma context_contains_every_chunk_witness :
  exists before after,
    SimpleRAGPipeline.context
      [mkDocument "hello" []; mkDocument "world" []] =
    before ++ "world" ++ after.
Proof.
  destruct (context_contains_every_chunk (mkDocument "world" [])
              [mkDocument "hello" []; mkDocument "world" []]
              (or_intror (or_introl eq_refl)))
    as (before & after & H & _).
  exists before, after. exact H.
Defined.

Lemma simple_init_ingests_witness :
  exists e',
    SimpleRAGPipeline.init Reference.handle "documento.pdf" "./db" tt
      (Reference.start Reference.world0) =
    (inr Reference.simple_pipeline, tt, e').
Proof.
  eexists.
  apply (proj2 (simple_init_ingests Reference.handle "documento.pdf" "./db"
                  (Reference.start Reference.world0)
                  Reference.simple_pipeline _)).
  do 10 eexists.
  repeat (split; [reflexivity|]). split; reflexivity.
Defined.

Lemma main_preconditions_witness :
  Scripts.main Reference.handle Scripts.on_disk Scripts.ascii_strip
    Scripts.ascii_lower Scripts.session tt
    (Reference.start Scripts.world_no_pdf) =
  (inr Scripts.session, tt, Reference.start Scripts.world_no_pdf) /\
  Scripts.main Reference.handle Scripts.on_disk Scripts.ascii_strip
    Scripts.ascii_lower Scripts.session tt
    (Reference.start Reference.world_no_key) =
  (inl (ValueError RAGPipeline.msg_no_api_key), tt,
   mkExt Reference.world_no_key
         [Ev load_dotenv; Ev (os_getenv "OPENAI_API_KEY")]).
Proof.
  split.
  - apply (proj1 (main_preconditions Reference.handle Scripts.on_disk
                    Scripts.ascii_strip Scripts.ascii_lower
                    Scripts.session
                    (Reference.start Scripts.world_no_pdf))).
    reflexivity.
  - eapply (proj2 (main_preconditions Reference.handle Scripts.on_disk
                     Scripts.ascii_strip Scripts.ascii_lower
                     Scripts.session
                     (Reference.start Reference.world_no_key)));
      reflexivity.
Defined.

Lemma main_session_witness :
  Scripts.has_exit Scripts.ascii_strip Scripts.ascii_lower
    Scripts.main_exit_words Scripts.session = true /\
  ["ignored"] =
  Scripts.after_exit Scripts.ascii_strip Scripts.ascii_lower
    Scripts.main_exit_words Scripts.session /\
  exists earlier,
    trace (snd (Scripts.main Reference.handle Scripts.on_disk
                  Scripts.ascii_strip Scripts.ascii_lower Scripts.session
                  tt (Reference.start Reference.world0))) =
    (earlier ++
     Scripts.asks
       (Scripts.default_chain RAGPipeline.default_persist_directory)
       (Scripts.example_questions ++
        Scripts.questions Scripts.ascii_strip
          (Scripts.before_exit Scripts.ascii_strip Scripts.ascii_lower
             Scripts.main_exit_words Scripts.session)))%list.
Proof.
  apply (main_session Reference.handle Scripts.on_disk Scripts.ascii_strip
           Scripts.ascii_lower Scripts.session ["ignored"]
           (Reference.start Reference.world0)).
  - reflexivity.
  - vm_compute. reflexivity.
Defined.


Lemma ejemplo_basico_completed_witness :
  exists earlier,
    trace (snd (Scripts.ejemplo_basico Reference.handle tt
                  (Reference.start Reference.world0))) =
    (earlier ++
     Scripts.asks
       (Scripts.default_chain RAGPipeline.default_persist_directory)
       Scripts.preguntas)%list.
Proof.
  apply (ejemplo_basico_completed Reference.handle
           (Reference.start Reference.world0)).
  vm_compute. reflexivity.
Defined.

Lemma attributes_once_set_stay_set_witness :
  RAGPipeline.lifecycle
    (fst (RAGPipeline.after_all Scripts.offline
            [RAGPipeline.call_load_pdf; RAGPipeline.call_query "q"]
            (fst Reference.ingested) (snd Reference.ingested))) =
  RAGPipeline.Ready.
Proof.
  apply (proj1 (proj2 (attributes_once_set_stay_set Scripts.offline
                         [RAGPipeline.call_load_pdf;
                          RAGPipeline.call_query "q"]
                         (fst Reference.ingested)
                         (snd Reference.ingested))
                  eq_refl)).
Defined.
